(** * Vencord: build scripts, plugin declarations and Discord helpers

    A shallow embedding of
    - [src/plugins/oneko.ts] (the [oneko] and [AnonymiseFileNames] plugin
      declarations and [anonymise]),
    - [src/utils/discord.tsx] (the helpers over the host's stores,
      dispatcher and REST client),
    - [scripts/build/build.mts] and [scripts/build/build.mjs] (the bundle
      configurations and the native-plugin manifest generator),
    together with the properties checked of them.

    Conventions.  A JavaScript string is a [string]; each [ascii] stands
    for one code unit.  A JavaScript object used as a dictionary is a
    [gmap string _]; the object spread [{...a, k: v}] is [<[k:=v]> a].
    Host-supplied functions are events of a small free monad and are
    interpreted against an arbitrary host. *)

From Stdlib Require Import ZArith Ascii String DecimalString.
From stdpp Require Import gmap strings list fin_maps.

#[local] Set Warnings "-register-all".

Local Open Scope Z_scope.

(* ===================================================================== *)
(** * JavaScript values and primitives used by the sources *)
(* ===================================================================== *)

Module JS.

(** [String.prototype.lastIndexOf] for a one-character needle:
    the index of the last occurrence, [-1] when there is none. *)
Fixpoint lastIndexOf (s : string) (c : ascii) : Z :=
  match s with
  | EmptyString => -1
  | String c' s' =>
      let r := lastIndexOf s' c in
      if r =? -1 then (if Ascii.eqb c' c then 0 else -1) else r + 1
  end.

Fixpoint drop (n : nat) (s : string) : string :=
  match n, s with
  | O, _ => s
  | S _, EmptyString => EmptyString
  | S n', String _ s' => drop n' s'
  end.

(** [String.prototype.slice(start)]: a negative [start] counts from the
    end of the string, and is clamped at the beginning. *)
Definition slice (s : string) (start : Z) : string :=
  if start <? 0
  then drop (Z.to_nat (Z.max (Z.of_nat (String.length s) + start) 0)) s
  else drop (Z.to_nat start) s.

(** Indexing [s[i]]: [None] is JavaScript's [undefined]. *)
Definition charAt (s : string) (i : nat) : option ascii := String.get i s.

(** [String(n)] / template interpolation of an integral number. *)
Definition numberToString (n : Z) : string :=
  NilZero.string_of_int (Z.to_int n).

(** [Array.prototype.join] with the empty separator: [undefined]
    elements contribute nothing. *)
Fixpoint join (l : list (option ascii)) : string :=
  match l with
  | [] => EmptyString
  | Some c :: l' => String c (join l')
  | None :: l' => join l'
  end.

(** [ToLength] of an integral number: a negative length becomes [0], and
    a length beyond [2^53 - 1] becomes that. *)
Definition toLength (n : Z) : Z := Z.min (Z.max n 0) (2 ^ 53 - 1).

(** The values exchanged with the host application. *)
Inductive JSVal :=
| JUndefined
| JNull
| JBool (b : bool)
| JNum (n : Z)
| JStr (s : string)
| JArr (l : list JSVal)
| JObj (o : gmap string JSVal).

(** [ToBoolean]: what [if (v)], [!v], [v ? a : b] and [v && w] test. *)
Definition truthy (v : JSVal) : bool :=
  match v with
  | JUndefined | JNull => false
  | JBool b => b
  | JNum n => negb (n =? 0)
  | JStr s => negb (String.eqb s EmptyString)
  | JArr _ | JObj _ => true
  end.

Inductive Exn :=
| TypeError                 (* raised by the language itself *)
| RangeError                (* raised by the language: invalid array length *)
| Error (message : string)  (* [throw new Error(message)] *)
| HostError (e : JSVal).    (* thrown or rejected by a host function *)

(** [Array.from({ length }, mapFn)]: the length is [ToLength(length)];
    [new Array(len)] throws a [RangeError] when [len] is beyond
    [2^32 - 1]; otherwise [mapFn] is called for each index in turn. *)
Definition arrayFrom {A} (length : Z) (mapFn : nat -> A) : Exn + list A :=
  let len := toLength length in
  if 2 ^ 32 - 1 <? len then inl RangeError
  else inr (map mapFn (seq 0 (Z.to_nat len))).

(** Property read [v.k]; reading a property of [undefined] or [null]
    throws, and so does destructuring them. *)
Definition getProp (v : JSVal) (k : string) : Exn + JSVal :=
  match v with
  | JUndefined | JNull => inl TypeError
  | JObj o => inr (default JUndefined (o !! k))
  | _ => inr JUndefined
  end.

(** Optional chaining [o?.k] on an optional options object. *)
Definition getPropOpt (o : option (gmap string JSVal)) (k : string) : JSVal :=
  match o with
  | Some o => default JUndefined (o !! k)
  | None => JUndefined
  end.

(** The own enumerable properties that [{...v}] copies. *)
Definition ownProps (v : JSVal) : gmap string JSVal :=
  match v with
  | JObj o => o
  | JArr l =>
      list_to_map (imap (fun i x => (numberToString (Z.of_nat i), x)) l)
  | JStr s =>
      list_to_map (imap (fun i c => (numberToString (Z.of_nat i),
                                     JStr (String c EmptyString)))
                        (list_ascii_of_string s))
  | _ => ∅
  end.

(** [{ ...base, ...v }]: the properties of [v] win. *)
Definition spread (base : gmap string JSVal) (v : JSVal) : gmap string JSVal :=
  ownProps v ∪ base.

Definition spreadOpt (base : gmap string JSVal)
    (o : option (gmap string JSVal)) : gmap string JSVal :=
  match o with Some o => o ∪ base | None => base end.


(** [String(v)], the coercion of a template literal; an array joins its
    elements with commas, [undefined] and [null] elements as nothing. *)
Fixpoint toString (v : JSVal) : string :=
  match v with
  | JUndefined => "undefined"
  | JNull => "null"
  | JBool true => "true"
  | JBool false => "false"
  | JNum n => numberToString n
  | JStr s => s
  | JArr l =>
      String.concat ","
        (map (fun x => match x with
                       | JUndefined | JNull => EmptyString
                       | _ => toString x
                       end) l)
  | JObj _ => "[object Object]"
  end.

(** [v === s] for a string literal [s]. *)
Definition strictEqStr (v : JSVal) (s : string) : bool :=
  match v with JStr s' => String.eqb s' s | _ => false end.

(** [JSON.stringify] on booleans, integral numbers and strings. *)
Definition quote : ascii := "034"%char.
Definition backslash : ascii := "092"%char.
Definition newline : ascii := "010"%char.

Definition hexDigit (n : nat) : ascii :=
  default "0"%char (String.get n "0123456789abcdef").

Definition jsonEscape (c : ascii) : string :=
  let n := nat_of_ascii c in
  if (n =? 34)%nat then String backslash (String quote EmptyString)
  else if (n =? 92)%nat then String backslash (String backslash EmptyString)
  else if (n =? 8)%nat then String backslash "b"
  else if (n =? 9)%nat then String backslash "t"
  else if (n =? 10)%nat then String backslash "n"
  else if (n =? 12)%nat then String backslash "f"
  else if (n =? 13)%nat then String backslash "r"
  else if (n <? 32)%nat then
    String backslash ("u00" +:+ String (hexDigit (n / 16))
                                  (String (hexDigit (n mod 16)) EmptyString))
  else String c EmptyString.

Fixpoint jsonEscapeAll (s : string) : string :=
  match s with
  | EmptyString => EmptyString
  | String c s' => jsonEscape c +:+ jsonEscapeAll s'
  end.

Definition JSON_stringify_string (s : string) : string :=
  String quote (jsonEscapeAll s +:+ String quote EmptyString).

Definition JSON_stringify_bool (b : bool) : string :=
  if b then "true" else "false".

Definition JSON_stringify_number (n : Z) : string := numberToString n.

End JS.

(* ===================================================================== *)
(** * A backtracking matcher for the regular expressions of the sources *)
(* ===================================================================== *)

Module RegExp.

(** The atoms that occur in [/\.tar\.\w+$/]. *)
Inductive atom :=
| Lit (c : ascii)      (* a literal character, such as [\.] or [t] *)
| WordPlus             (* [\w+] *)
| EndOfInput.          (* [$] without the [m] flag *)

(** [\w] without the [u] and [i] flags is [[A-Za-z0-9_]]. *)
Definition is_word (c : ascii) : bool :=
  let n := nat_of_ascii c in
  ((65 <=? n)%nat && (n <=? 90)%nat)
  || ((97 <=? n)%nat && (n <=? 122)%nat)
  || ((48 <=? n)%nat && (n <=? 57)%nat)
  || (n =? 95)%nat.

(** Does the pattern match at the very beginning of [s]?  [\w+] takes
    one word character and then either stops or goes on; the order of
    the two alternatives does not change whether a match exists. *)
Fixpoint match_here (p : list atom) : string -> bool :=
  match p with
  | [] => fun _ => true
  | Lit c :: p' => fun s =>
      match s with
      | String c' s' => Ascii.eqb c' c && match_here p' s'
      | EmptyString => false
      end
  | WordPlus :: p' =>
      fix plus (s : string) : bool :=
        match s with
        | String c' s' => is_word c' && (plus s' || match_here p' s')
        | EmptyString => false
        end
  | EndOfInput :: p' => fun s =>
      match s with
      | EmptyString => match_here p' EmptyString
      | String _ _ => false
      end
  end.

(** [RegExp.prototype.exec] for a pattern without the [g]/[y] flags,
    reduced to the [index] of the match object: start positions are
    tried from left to right, [None] is [null]. *)
Fixpoint exec_from (p : list atom) (i : nat) (s : string) : option nat :=
  if match_here p s then Some i
  else match s with
       | EmptyString => None
       | String _ s' => exec_from p (S i) s'
       end.

Definition exec (p : list atom) (s : string) : option nat := exec_from p 0 s.

End RegExp.

(* ===================================================================== *)
(** * [src/plugins/oneko.ts]: AnonymiseFileNames.anonymise *)
(* ===================================================================== *)

Module AnonymiseFileNames.

(** [const enum Methods { Random, Consistent, Timestamp }] *)
Module Methods.
Definition Random : Z := 0.
Definition Consistent : Z := 1.
Definition Timestamp : Z := 2.
End Methods.

(** [const tarExtMatcher = /\.tar\.\w+$/;] *)
Definition tarExtMatcher : list RegExp.atom :=
  [RegExp.Lit "."; RegExp.Lit "t"; RegExp.Lit "a"; RegExp.Lit "r";
   RegExp.Lit "."; RegExp.WordPlus; RegExp.EndOfInput]%char.

(** What [anonymise] reads from its surroundings: the plugin's settings
    and the host's sources of randomness and time.
    [random_index k] is the value of
    [Math.floor(Math.random() * chars.length)] at the [k]-th draw,
    [date_now] is [Date.now()] (integral milliseconds) and
    [performance_now] is [Math.floor(window.performance.now())]. *)
Record Env := {
  method : Z;
  randomisedLength : Z;
  consistent : string;
  random_index : nat -> nat;
  date_now : Z;
  performance_now : Z
}.

Definition chars : string :=
  "ABCDEFGHIJKLMNOPQRSTUVWXYZabcdefghijklmnopqrstuvwxyz0123456789".

(** The extension kept by [anonymise]:
    [tarMatch?.index ?? file.lastIndexOf(".")], then the slice. *)
Definition extIdx (file : string) : Z :=
  match RegExp.exec tarExtMatcher file with
  | Some index => Z.of_nat index
  | None => JS.lastIndexOf file "."
  end.

Definition ext (file : string) : string :=
  if negb (extIdx file =? -1) then JS.slice file (extIdx file) else EmptyString.

(** The [switch] over the configured method; a value that is none of
    the three methods leaves the initial ["image"].  The Random method
    throws what [Array.from] throws. *)
Definition name (e : Env) : JS.Exn + string :=
  if method e =? Methods.Random then
    match JS.arrayFrom (randomisedLength e)
            (fun k => JS.charAt chars (random_index e k)) with
    | inl err => inl err
    | inr drawn => inr (JS.join drawn)
    end
  else if method e =? Methods.Consistent then
    inr (consistent e)
  else if method e =? Methods.Timestamp then
    inr (JS.numberToString (date_now e / 1000)
         +:+ JS.numberToString (performance_now e))
  else inr "image".

(** [anonymise]: the extension is read first, then the name is made;
    the result is [name + ext]. *)
Definition anonymise (e : Env) (file : string) : JS.Exn + string :=
  match name e with
  | inl err => inl err
  | inr name => inr (name +:+ ext file)
  end.

End AnonymiseFileNames.

(* ===================================================================== *)
(** * The host application *)
(* ===================================================================== *)

Module Host.

Import JS.

(** React elements, as far as [openImageModal] builds them. *)
Inductive PropVal :=
| PVal (v : JSVal)
| PRef (name : string)       (* a value read from a host module *)
| PRenderMaskedLink.         (* [props => <MaskedLink {...props} />] *)

Inductive Element :=
| Elem (component : string) (props : gmap string PropVal)
       (children : list Element).

(** The host-supplied functions that [src/utils/discord.tsx] calls. *)
Inductive HostCall :=
| UserProfileStore_getUserProfile (id : string)
| FluxDispatcher_dispatch (event : gmap string JSVal)
| RestAPI_get (request : gmap string JSVal)
| UserUtils_fetchUser (id : string)
| SelectedGuildStore_getGuildId
| SelectedChannelStore_getChannelId
| openProfile (arg : gmap string JSVal)
| MessageActions_sendMessage (channelId : string)
    (messageData : gmap string JSVal) (waitForChannelReady extra : JSVal)
| openModal (render : gmap string PropVal -> Element).

(** Programs over host calls: a free monad with exceptions. *)
Inductive Prog (A : Type) : Type :=
| Ret (a : A)
| Throw (e : Exn)
| Call (c : HostCall) (k : JSVal -> Prog A).
Arguments Ret {A} a.
Arguments Throw {A} e.
Arguments Call {A} c k.

Fixpoint bind {A B} (p : Prog A) (f : A -> Prog B) : Prog B :=
  match p with
  | Ret a => f a
  | Throw e => Throw e
  | Call c k => Call c (fun v => bind (k v) f)
  end.

Definition call (c : HostCall) : Prog JSVal := Call c Ret.

Definition lift {A} (r : Exn + A) : Prog A :=
  match r with inl e => Throw e | inr a => Ret a end.

(** What a host function does when called.  For a call whose result is
    awaited, [Returned v] is a promise fulfilled with [v] and [Thrown e]
    a rejection with [e]; for a call that is not awaited, [Thrown e] is
    an exception thrown by the call itself.  The helpers are run from
    their first statement to their last; what other tasks do to the host
    while a helper awaits is part of the host's answers. *)
Inductive Outcome :=
| Returned (v : JSVal)
| Thrown (e : JSVal).

(** A host: some state and the behaviour of its functions on it. *)
Record Host := {
  world : Type;
  respond : HostCall -> world -> Outcome * world
}.

(** The result of running a program: what it returned or threw, the
    host state it left, and the host calls it made, in order. *)
Record Run (W A : Type) := {
  result : Exn + A;
  final : W;
  trace : list HostCall
}.
Arguments result {W A} r.
Arguments final {W A} r.
Arguments trace {W A} r.

Fixpoint run {A} (h : Host) (p : Prog A) (w : world h) : Run (world h) A :=
  match p with
  | Ret a => {| result := inr a; final := w; trace := [] |}
  | Throw e => {| result := inl e; final := w; trace := [] |}
  | Call c k =>
      match respond h c w with
      | (Returned v, w') =>
          let r := run h (k v) w' in
          {| result := result r; final := final r; trace := c :: trace r |}
      | (Thrown e, w') =>
          {| result := inl (HostError e); final := w'; trace := [c] |}
      end
  end.

End Host.

Declare Scope prog_scope.
Delimit Scope prog_scope with prog.
Notation "x <- p ;; q" := (Host.bind p (fun x => q))
  (at level 100, p at next level, right associativity) : prog_scope.
Notation "p ;;; q" := (Host.bind p (fun _ => q))
  (at level 100, right associativity) : prog_scope.

(* ===================================================================== *)
(** * [src/utils/discord.tsx] *)
(* ===================================================================== *)

Module Discord.

Import JS Host.
Local Open Scope prog_scope.

(** The fields of [User] (from [discord-types]) that the helpers read. *)
Record User := {
  username : string;
  discriminator : string;
  tag : string
}.


(** [openImageModal]: the element tree rendered into the modal. *)
Definition imageModalProps (url : string)
    (props : option (gmap string PropVal)) : gmap string PropVal :=
  let base : gmap string PropVal :=
    {[ "className" := PRef "ModalImageClasses.image";
       "original" := PVal (JStr url);
       "placeholder" := PVal (JStr url);
       "src" := PVal (JStr url);
       "renderLinkComponent" := PRenderMaskedLink;
       "shouldHideMediaOptions" := PVal (JBool false);
       "shouldAnimate" := PVal (JBool true) ]} in
  match props with Some p => p ∪ base | None => base end.

Definition openImageModal (url : string)
    (props : option (gmap string PropVal)) : Prog JSVal :=
  call (openModal (fun modalProps =>
    Elem "ModalRoot"
      (<["size" := PRef "ModalSize.DYNAMIC"]>
         (<["className" := PRef "ModalImageClasses.modal"]> modalProps))
      [Elem "ImageModal" (imageModalProps url props) []])).

Definition openUserProfile (id : string) : Prog JSVal :=
  user <- call (UserUtils_fetchUser id) ;;
  if negb (truthy user) then Throw (Error ("No such user: " +:+ id)) else
  guildId <- call SelectedGuildStore_getGuildId ;;
  channelId <- call SelectedChannelStore_getChannelId ;;
  call (openProfile
    {[ "userId" := JStr id;
       "guildId" := guildId;
       "channelId" := channelId;
       "analyticsLocation" := JObj
         {[ "page" := JStr (if truthy guildId then "Guild Channel"
                            else "DM Channel");
            "section" := JStr "Profile Popout" ]} ]}) ;;;
  Ret JUndefined.

Definition fetchUserProfile (id : string)
    (options : option (gmap string JSVal)) : Prog JSVal :=
  cached <- call (UserProfileStore_getUserProfile id) ;;
  if truthy cached then Ret cached else
  call (FluxDispatcher_dispatch
          {[ "type" := JStr "USER_PROFILE_FETCH_START";
             "userId" := JStr id ]}) ;;;
  response <- call (RestAPI_get
    {[ "url" := JStr ("/users/" +:+ id +:+ "/profile");
       "query" := JObj (spreadOpt
          {[ "with_mutual_guilds" := JBool false;
             "with_mutual_friends_count" := JBool false ]} options);
       "oldFormErrors" := JBool true ]}) ;;
  body <- lift (getProp response "body") ;;
  user <- lift (getProp body "user") ;;
  call (FluxDispatcher_dispatch
          {[ "type" := JStr "USER_UPDATE"; "user" := user ]}) ;;;
  call (FluxDispatcher_dispatch
          (spread {[ "type" := JStr "USER_PROFILE_FETCH_SUCCESS" ]} body)) ;;;
  (if truthy (getPropOpt options "guild_id")
   then guild_member <- lift (getProp body "guild_member") ;;
        if truthy guild_member
        then call (FluxDispatcher_dispatch
               {[ "type" := JStr "GUILD_MEMBER_PROFILE_UPDATE";
                  "guildId" := getPropOpt options "guild_id";
                  "guildMember" := guild_member ]})
        else Ret JUndefined
   else Ret JUndefined) ;;;
  call (UserProfileStore_getUserProfile id).

(** [getUniqueUsername]: [===] on two strings is string equality. *)
Definition getUniqueUsername (user : User) : string :=
  if String.eqb (discriminator user) "0" then username user else tag user.

End Discord.

(* ===================================================================== *)
(** * [src/plugins/oneko.ts]: the plugin declarations *)
(* ===================================================================== *)

Module Plugins.

(** The page a plugin's hooks act on: the timers that are running, the
    [window.onekoInterval] property, the ids of the elements in the
    document, and the requests handed to [fetch]. *)
Record Page := {
  timers : list Z;
  onekoInterval : option Z;
  elements : list string;
  fetches : list string
}.

(** A source patch: [{ find, replacement: { match, replace } }]. *)
Record Patch := {
  find : string;
  replacement_match : string;
  replacement_replace : string
}.

Inductive OptionType := SELECT | NUMBER | STRING.

Record SelectChoice := {
  label : string;
  value : Z;
  is_default : bool
}.

(** One entry of a plugin's option schema.  [disabled] is given the
    current value of the plugin's [method] setting. *)
Record OptionDef := {
  description : string;
  type : OptionType;
  options : list SelectChoice;
  default_number : option Z;
  default_string : option string;
  disabled : option (Z -> bool)
}.

(** The members an object literal passed to [definePlugin] can have.
    A hook changes the page and may throw: [Some e] is the exception. *)
Inductive Member :=
| MString (s : string)
| MAuthors (devs : list string)
| MPatches (patches : list Patch)
| MOptions (schema : gmap string OptionDef)
| MHook (body : Page -> option JS.Exn * Page)
| MAnonymise (body : AnonymiseFileNames.Env -> string -> JS.Exn + string).



(** [document.getElementById(id)?.remove()]: the first element with
    that id leaves the document. *)
Fixpoint removeById (id : string) (l : list string) : list string :=
  match l with
  | [] => []
  | e :: l' => if String.eqb e id then l' else e :: removeById id l'
  end.

(** [oneko.stop]: [clearInterval(window.onekoInterval)], then
    [delete window.onekoInterval], then remove the element ["oneko"]. *)
Definition oneko_stop (p : Page) : option JS.Exn * Page :=
  (None,
   {| timers := match onekoInterval p with
                | Some t => List.filter (fun t' => negb (t' =? t)) (timers p)
                | None => timers p
                end;
      onekoInterval := None;
      elements := removeById "oneko" (elements p);
      fetches := fetches p |}).


Definition AnonymiseFileNames : gmap string Member :=
  {[ "name" := MString "AnonymiseFileNames";
     "authors" := MAuthors ["Devs.obscurity"];
     "description" := MString "Anonymise uploaded file names";
     "patches" := MPatches
       [ {| find := "instantBatchUpload:function";
            replacement_match := "uploadFiles:(.{1,2}),";
            replacement_replace :=
              "uploadFiles:(...args)=>(args[0].uploads.forEach(f=>f.filename=$self.anonymise(f.filename)),$1(...args))," |} ];
     "options" := MOptions
       {[ "method" :=
            {| description := "Anonymising method";
               type := SELECT;
               options :=
                 [ {| label := "Random Characters";
                      value := AnonymiseFileNames.Methods.Random;
                      is_default := true |};
                   {| label := "Consistent";
                      value := AnonymiseFileNames.Methods.Consistent;
                      is_default := false |};
                   {| label := "Timestamp (4chan-like)";
                      value := AnonymiseFileNames.Methods.Timestamp;
                      is_default := false |} ];
               default_number := None; default_string := None;
               disabled := None |};
          "randomisedLength" :=
            {| description := "Random characters length";
               type := NUMBER; options := [];
               default_number := Some 7; default_string := None;
               disabled := Some (fun method =>
                 negb (method =? AnonymiseFileNames.Methods.Random)) |};
          "consistent" :=
            {| description := "Consistent filename";
               type := STRING; options := [];
               default_number := None; default_string := Some "image";
               disabled := Some (fun method =>
                 negb (method =? AnonymiseFileNames.Methods.Consistent)) |} ]};
     "anonymise" := MAnonymise AnonymiseFileNames.anonymise ]}.



Definition nameOf (d : gmap string Member) : string :=
  match d !! "name" with Some (MString s) => s | _ => EmptyString end.

Inductive Lifecycle := Start | Stop.

Definition hookName (phase : Lifecycle) : string :=
  match phase with Start => "start" | Stop => "stop" end.

Definition hookOf (d : gmap string Member) (phase : Lifecycle)
    : option (Page -> option JS.Exn * Page) :=
  match d !! hookName phase with Some (MHook h) => Some h | _ => None end.

(** What the user is told about a failed hook. *)
Record Report := {
  plugin : string;
  phase : Lifecycle;
  error : JS.Exn
}.

Record Manager := {
  page : Page;
  reports : list Report
}.

(** How a call comes back to its caller. *)
Inductive Completion :=
| Normal
| Abrupt (e : JS.Exn).

(** Modelled from the spec: the plugin manager that calls the [start]
    and [stop] hooks of a plugin is not among the sources at hand; the
    specification says of it that "a plugin that throws during
    [start]/[stop] is caught and reported to the user via a
    log/notification".  A plugin without the hook has nothing to run. *)
Definition runLifecycle (d : gmap string Member) (ph : Lifecycle)
    (m : Manager) : Completion * Manager :=
  match hookOf d ph with
  | None => (Normal, m)
  | Some hook =>
      match hook (page m) with
      | (None, p') => (Normal, {| page := p'; reports := reports m |})
      | (Some e, p') =>
          (Normal,
           {| page := p';
              reports := reports m
                ++ [{| plugin := nameOf d; phase := ph; error := e |}] |})
      end
  end.

End Plugins.

(* ===================================================================== *)
(** * [scripts/build]: what both build scripts share *)
(* ===================================================================== *)

Module Build.

Import JS.

(** The esbuild plugins the scripts put into a configuration. *)
Inductive Plugin :=
| GlobPlugins (kind : string)    (* [globPlugins("discordDesktop")] *)
| GlobNativesPlugin              (* [globNativesPlugin] of build.mts *)
| CommonPlugin (name : string).  (* a plugin listed by common.mjs *)

(** The values of the members of an [esbuild.BuildOptions] object. *)
Inductive OptVal :=
| OStr (s : string)
| OStrs (l : list string)
| OFooter (js : string)
| ODefine (d : gmap string JSVal)
| OPlugins (l : list Plugin).

(** An object literal [{ ...base, k1: v1, ..., kn: vn }]: the members
    are assigned in source order, a later one replacing an earlier. *)
Definition objectLiteral {V} (base : gmap string V)
    (members : list (string * V)) : gmap string V :=
  fold_left (fun o kv => <[kv.1 := kv.2]> o) members base.

Section Readers.
Implicit Type o : gmap string OptVal.

Definition entryPoints o : list string :=
  match o !! "entryPoints" with Some (OStrs l) => l | _ => [] end.

Definition outfile o : option string :=
  match o !! "outfile" with Some (OStr f) => Some f | _ => None end.

Definition format o : option string :=
  match o !! "format" with Some (OStr f) => Some f | _ => None end.

Definition define o : gmap string JSVal :=
  match o !! "define" with Some (ODefine d) => d | _ => ∅ end.

Definition plugins o : list Plugin :=
  match o !! "plugins" with Some (OPlugins l) => l | _ => [] end.
End Readers.

(** [sourceMapFooter] and [sourcemap] are the same in both scripts. *)
Definition sourceMapFooter (watch : bool) (s : string) : string :=
  if watch then EmptyString
  else "//# sourceMappingURL=vencord://" +:+ s +:+ ".js.map".

Definition sourcemap (watch : bool) : string :=
  if watch then "inline" else "external".

Definition footer (watch : bool) (sourceURL map : string) : OptVal :=
  OFooter ("//# sourceURL=" +:+ sourceURL +:+ String newline EmptyString
           +:+ sourceMapFooter watch map).

(** The last value that the members of an object literal give to [k]. *)
Fixpoint assigned {V} (k : string) (members : list (string * V)) : option V :=
  match members with
  | [] => None
  | (k', v) :: rest =>
      match assigned k rest with
      | Some v' => Some v'
      | None => if String.eqb k' k then Some v else None
      end
  end.

(** A flag is defined as the boolean [b] when its value is [b] itself
    (build.mjs) or the source text of [b] (build.mts). *)
Definition definedAs (v : JSVal) (b : bool) : Prop :=
  v = JBool b \/ v = JStr (JSON_stringify_bool b).

(** Which bundle a configuration builds: its part of the application,
    read off the entry point, and the host distribution, read off the
    two distribution flags. *)
Inductive Role := Main | Renderer | Preload.
Inductive Distribution := DiscordDesktop | VencordDesktop.

Global Instance Role_eq_dec : EqDecision Role.
Proof. solve_decision. Defined.

Global Instance Distribution_eq_dec : EqDecision Distribution.
Proof. solve_decision. Defined.

Definition roleOf (o : gmap string OptVal) : option Role :=
  match entryPoints o with
  | [e] =>
      if String.eqb e "src/main/index.ts" then Some Main
      else if String.eqb e "src/Vencord.ts" then Some Renderer
      else if String.eqb e "src/preload.ts" then Some Preload
      else None
  | _ => None
  end.

Definition flagText (o : gmap string OptVal) (k : string) : option string :=
  toString <$> (define o !! k).

Definition distributionOf (o : gmap string OptVal) : option Distribution :=
  match flagText o "IS_DISCORD_DESKTOP", flagText o "IS_VESKTOP" with
  | Some d, Some v =>
      if String.eqb d "true" && String.eqb v "false" then Some DiscordDesktop
      else if String.eqb d "false" && String.eqb v "true" then Some VencordDesktop
      else None
  | _, _ => None
  end.

Definition bundleOf (o : gmap string OptVal) : option (Role * Distribution) :=
  match roleOf o, distributionOf o with
  | Some r, Some d => Some (r, d)
  | _, _ => None
  end.

Definition sixBundles : list (option (Role * Distribution)) :=
  [ Some (Main, DiscordDesktop); Some (Renderer, DiscordDesktop);
    Some (Preload, DiscordDesktop); Some (Main, VencordDesktop);
    Some (Renderer, VencordDesktop); Some (Preload, VencordDesktop) ].

Definition sixOutfiles : list (option string) :=
  [ Some "dist/patcher.js"; Some "dist/renderer.js"; Some "dist/preload.js";
    Some "dist/vencordDesktopMain.js"; Some "dist/vencordDesktopRenderer.js";
    Some "dist/vencordDesktopPreload.js" ].

End Build.

(* ===================================================================== *)
(** * [scripts/build/build.mts] *)
(* ===================================================================== *)

Module Mts.

Import JS Build.

(** [buildOpts] of common.mjs, an [esbuild.BuildOptions]: the script
    reads [external] and [plugins] behind [?? []] and copies the rest. *)
Record BuildOpts := {
  external : option (list string);
  plugins : option (list Plugin);
  others : gmap string OptVal
}.

(** What build.mts imports from common.mjs, and [process.platform]. *)
Record Common := {
  BUILD_TIMESTAMP : Z;
  buildOpts : BuildOpts;
  IS_DEV : bool;
  IS_REPORTER : bool;
  IS_STANDALONE : bool;
  IS_UPDATER_DISABLED : bool;
  VERSION : string;
  watch : bool;
  process_platform : string
}.

(** [{ ...buildOpts }] *)
Definition spreadBuildOpts (b : BuildOpts) : gmap string OptVal :=
  let o := others b in
  let o := match external b with
           | Some l => <["external" := OStrs l]> o
           | None => o
           end in
  match plugins b with
  | Some l => <["plugins" := OPlugins l]> o
  | None => o
  end.

Definition defines (c : Common) : gmap string JSVal :=
  let defines := objectLiteral ∅
    [ ("IS_STANDALONE", JStr (JSON_stringify_bool (IS_STANDALONE c)));
      ("IS_DEV", JStr (JSON_stringify_bool (IS_DEV c)));
      ("IS_REPORTER", JStr (JSON_stringify_bool (IS_REPORTER c)));
      ("IS_UPDATER_DISABLED", JStr (JSON_stringify_bool (IS_UPDATER_DISABLED c)));
      ("IS_WEB", JStr (JSON_stringify_bool false));
      ("IS_EXTENSION", JStr (JSON_stringify_bool false));
      ("VERSION", JStr (JSON_stringify_string (VERSION c)));
      ("BUILD_TIMESTAMP", JStr (JSON_stringify_number (BUILD_TIMESTAMP c))) ] in
  if strictEqStr (default JUndefined (defines !! "IS_STANDALONE")) "false"
  then <["process.platform" := JStr (JSON_stringify_string (process_platform c))]>
         defines
  else defines.

Definition nodeBuildOpts (c : Common) : gmap string OptVal :=
  objectLiteral (spreadBuildOpts (buildOpts c))
    [ ("format", OStr "cjs");
      ("platform", OStr "node");
      ("target", OStrs ["esnext"]);
      ("external", OStrs (["electron"; "original-fs"; "~pluginNatives"]
                          ++ default [] (external (buildOpts c))));
      ("define", ODefine (defines c)) ].

Definition desktopDefine (c : Common) (discordDesktop vesktop : bool) : OptVal :=
  ODefine (objectLiteral (defines c)
    [ ("IS_DISCORD_DESKTOP", JStr (JSON_stringify_bool discordDesktop));
      ("IS_VESKTOP", JStr (JSON_stringify_bool vesktop)) ]).

Definition buildOptions (c : Common) : list (gmap string OptVal) :=
  [ (* Discord Desktop main & renderer & preload *)
    objectLiteral (nodeBuildOpts c)
      [ ("entryPoints", OStrs ["src/main/index.ts"]);
        ("outfile", OStr "dist/patcher.js");
        ("footer", footer (watch c) "VencordPatcher" "patcher");
        ("sourcemap", OStr (sourcemap (watch c)));
        ("define", desktopDefine c true false);
        ("plugins", OPlugins (Build.plugins (nodeBuildOpts c)
                              ++ [GlobNativesPlugin])) ];
    objectLiteral (spreadBuildOpts (buildOpts c))
      [ ("entryPoints", OStrs ["src/Vencord.ts"]);
        ("outfile", OStr "dist/renderer.js");
        ("format", OStr "iife");
        ("target", OStrs ["esnext"]);
        ("footer", footer (watch c) "VencordRenderer" "renderer");
        ("globalName", OStr "Vencord");
        ("sourcemap", OStr (sourcemap (watch c)));
        ("plugins", OPlugins ([GlobPlugins "discordDesktop"]
                              ++ default [] (plugins (buildOpts c))));
        ("define", desktopDefine c true false) ];
    objectLiteral (nodeBuildOpts c)
      [ ("entryPoints", OStrs ["src/preload.ts"]);
        ("outfile", OStr "dist/preload.js");
        ("footer", footer (watch c) "VencordPreload" "preload");
        ("sourcemap", OStr (sourcemap (watch c)));
        ("define", desktopDefine c true false) ];
    (* Vencord Desktop main & renderer & preload *)
    objectLiteral (nodeBuildOpts c)
      [ ("entryPoints", OStrs ["src/main/index.ts"]);
        ("outfile", OStr "dist/vencordDesktopMain.js");
        ("footer", footer (watch c) "VencordDesktopMain" "vencordDesktopMain");
        ("sourcemap", OStr (sourcemap (watch c)));
        ("define", desktopDefine c false true);
        ("plugins", OPlugins (Build.plugins (nodeBuildOpts c)
                              ++ [GlobNativesPlugin])) ];
    objectLiteral (spreadBuildOpts (buildOpts c))
      [ ("entryPoints", OStrs ["src/Vencord.ts"]);
        ("outfile", OStr "dist/vencordDesktopRenderer.js");
        ("format", OStr "iife");
        ("target", OStrs ["esnext"]);
        ("footer", footer (watch c) "VencordDesktopRenderer"
                     "vencordDesktopRenderer");
        ("globalName", OStr "Vencord");
        ("sourcemap", OStr (sourcemap (watch c)));
        ("plugins", OPlugins ([GlobPlugins "vencordDesktop"]
                              ++ default [] (plugins (buildOpts c))));
        ("define", desktopDefine c false true) ];
    objectLiteral (nodeBuildOpts c)
      [ ("entryPoints", OStrs ["src/preload.ts"]);
        ("outfile", OStr "dist/vencordDesktopPreload.js");
        ("footer", footer (watch c) "VencordPreload" "vencordDesktopPreload");
        ("sourcemap", OStr (sourcemap (watch c)));
        ("define", desktopDefine c false true) ] ].

(** The builds the script starts: one context per configuration, and
    one build per context, given the configuration at the same index.
    [makeContextPromise] and [makeBuildPromise] come from common.mjs. *)
Section Start.
Context {Ctx Bld WatchOpts : Type}.
Variable makeContextPromise : gmap string OptVal -> Ctx.
Variable makeBuildPromise :
  Ctx -> option (gmap string OptVal) -> WatchOpts -> Bld.
Variable watchOpts : WatchOpts.

Definition contextPromises (c : Common) : list Ctx :=
  map makeContextPromise (buildOptions c).

Definition builds (c : Common) : list Bld :=
  imap (fun buildIndex contextPromise =>
          makeBuildPromise contextPromise
            (buildOptions c !! buildIndex) watchOpts)
       (contextPromises c).
End Start.

End Mts.

(* ===================================================================== *)
(** * [scripts/build/build.mts]: globNativesPlugin *)
(* ===================================================================== *)

Module GlobNatives.

Import JS.

(** An entry of a directory listing ([fs.Dirent]). *)
Record Dirent := {
  name : string;
  isDirectory : bool
}.

Global Instance Dirent_eq_dec : EqDecision Dirent.
Proof. solve_decision. Defined.

(** [path.join] on plain path segments. *)
Fixpoint join (segments : list string) : string :=
  match segments with
  | [] => "."
  | [s] => s
  | s :: rest => s +:+ "/" +:+ join rest
  end.

Record OnResolveResult := {
  namespace : string;
  path : string
}.

Record OnLoadResult := {
  contents : string;
  resolveDir : string
}.

(** The filter [/^~pluginNatives$/] matches that one path only. *)
Definition onResolve (args_path : string) : option OnResolveResult :=
  if String.eqb args_path "~pluginNatives"
  then Some {| namespace := "import-natives"; path := args_path |}
  else None.

(** The three variables of the [onLoad] callback. *)
Record LoadState := {
  code : string;
  natives : string;
  i : nat
}.

Section OnLoad.

(** The file system as the scan finds it, and [resolvePluginName]
    of common.mjs. *)
Variable exists_ : string -> bool.
Variable readdir : string -> list Dirent.
Variable resolvePluginName : string -> Dirent -> string.

Definition pluginDirs : list string := ["plugins"; "userplugins"].

(** The body of the inner loop, for one [file] of [plugins]. *)
Definition visit (dir dirPath : string) (st : LoadState) (file : Dirent)
    : LoadState :=
  let fileName := name file in
  let nativePath := join [dirPath; fileName; "native.ts"] in
  let indexNativePath := join [dirPath; fileName; "native/index.ts"] in
  if negb (exists_ nativePath) && negb (exists_ indexNativePath)
  then st
  else
    let pluginName := resolvePluginName dirPath file in
    let mod_ := "p" +:+ numberToString (Z.of_nat (i st)) in
    {| code := code st +:+
         ("import * as " +:+ mod_ +:+ " from "
          +:+ String quote ("./" +:+ dir +:+ "/" +:+ fileName +:+ "/native"
          +:+ String quote (";" +:+ String newline EmptyString)));
       natives := natives st +:+
         (JSON_stringify_string pluginName +:+ ":" +:+ mod_ +:+ ","
          +:+ String newline EmptyString);
       i := S (i st) |}.

(** The body of the outer loop, for one [dir] of [pluginDirs]. *)
Definition scan (st : LoadState) (dir : string) : LoadState :=
  let dirPath := join ["src"; dir] in
  if negb (exists_ dirPath) then st
  else fold_left (visit dir dirPath) (readdir dirPath) st.

Definition onLoad : OnLoadResult :=
  let st := fold_left scan pluginDirs
              {| code := EmptyString;
                 natives := String newline EmptyString;
                 i := 0 |} in
  {| contents := code st +:+ ("export default {" +:+ natives st +:+ "};");
     resolveDir := "./src" |}.

End OnLoad.

End GlobNatives.

(* ===================================================================== *)
(** * [scripts/build/build.mjs] *)
(* ===================================================================== *)

Module Mjs.

Import JS Build.

(** [commonOpts] of common.mjs: the script spreads [external] and
    [plugins] into array literals, so both are arrays. *)
Record CommonOpts := {
  external : list string;
  plugins : list Plugin;
  others : gmap string OptVal
}.

(** What build.mjs imports from common.mjs, and [process.platform].
    [isStandalone], [updaterDisabled] and [BUILD_TIMESTAMP] are handed
    to esbuild as they come. *)
Record Common := {
  BUILD_TIMESTAMP : JSVal;
  commonOpts : CommonOpts;
  isStandalone : JSVal;
  updaterDisabled : JSVal;
  VERSION : string;
  watch : bool;
  process_platform : string
}.

(** [{ ...commonOpts }] *)
Definition spreadCommonOpts (b : CommonOpts) : gmap string OptVal :=
  <["plugins" := OPlugins (plugins b)]>
    (<["external" := OStrs (external b)]> (others b)).

Definition defines (c : Common) : gmap string JSVal :=
  let defines := objectLiteral ∅
    [ ("IS_STANDALONE", isStandalone c);
      ("IS_DEV", JStr (JSON_stringify_bool (watch c)));
      ("IS_UPDATER_DISABLED", updaterDisabled c);
      ("VERSION", JStr (JSON_stringify_string (VERSION c)));
      ("BUILD_TIMESTAMP", BUILD_TIMESTAMP c) ] in
  if strictEqStr (default JUndefined (defines !! "IS_STANDALONE")) "false"
  then <["process.platform" := JStr (JSON_stringify_string (process_platform c))]>
         defines
  else defines.

Definition nodeCommonOpts (c : Common) : gmap string OptVal :=
  objectLiteral (spreadCommonOpts (commonOpts c))
    [ ("format", OStr "cjs");
      ("platform", OStr "node");
      ("target", OStrs ["esnext"]);
      ("external", OStrs (["electron"] ++ external (commonOpts c)));
      ("define", ODefine (defines c)) ].

(** The six arguments of [esbuild.build], in the order of the array
    literal handed to [Promise.all]. *)
Definition buildOptions (c : Common) : list (gmap string OptVal) :=
  [ (* Discord Desktop main & renderer & preload *)
    objectLiteral (nodeCommonOpts c)
      [ ("entryPoints", OStrs ["src/main/index.ts"]);
        ("outfile", OStr "dist/patcher.js");
        ("footer", footer (watch c) "VencordPatcher" "patcher");
        ("sourcemap", OStr (sourcemap (watch c)));
        ("define", ODefine (objectLiteral (defines c)
           [ ("IS_DISCORD_DESKTOP", JBool true);
             ("IS_VESKTOP", JBool false) ])) ];
    objectLiteral (spreadCommonOpts (commonOpts c))
      [ ("entryPoints", OStrs ["src/Vencord.ts"]);
        ("outfile", OStr "dist/renderer.js");
        ("format", OStr "iife");
        ("target", OStrs ["esnext"]);
        ("footer", footer (watch c) "VencordRenderer" "renderer");
        ("globalName", OStr "Vencord");
        ("sourcemap", OStr (sourcemap (watch c)));
        ("plugins", OPlugins ([GlobPlugins "discordDesktop"]
                              ++ plugins (commonOpts c)));
        ("define", ODefine (objectLiteral (defines c)
           [ ("IS_WEB", JBool false);
             ("IS_DISCORD_DESKTOP", JBool true);
             ("IS_VESKTOP", JBool false) ])) ];
    objectLiteral (nodeCommonOpts c)
      [ ("entryPoints", OStrs ["src/preload.ts"]);
        ("outfile", OStr "dist/preload.js");
        ("footer", footer (watch c) "VencordPreload" "preload");
        ("sourcemap", OStr (sourcemap (watch c)));
        ("define", ODefine (objectLiteral (defines c)
           [ ("IS_DISCORD_DESKTOP", JBool true);
             ("IS_VESKTOP", JBool false) ])) ];
    (* Vencord Desktop main & renderer & preload *)
    objectLiteral (nodeCommonOpts c)
      [ ("entryPoints", OStrs ["src/main/index.ts"]);
        ("outfile", OStr "dist/vencordDesktopMain.js");
        ("footer", footer (watch c) "VencordDesktopMain" "vencordDesktopMain");
        ("sourcemap", OStr (sourcemap (watch c)));
        ("define", ODefine (objectLiteral (defines c)
           [ ("IS_DISCORD_DESKTOP", JBool false);
             ("IS_VESKTOP", JBool true) ])) ];
    objectLiteral (spreadCommonOpts (commonOpts c))
      [ ("entryPoints", OStrs ["src/Vencord.ts"]);
        ("outfile", OStr "dist/vencordDesktopRenderer.js");
        ("format", OStr "iife");
        ("target", OStrs ["esnext"]);
        ("footer", footer (watch c) "VencordDesktopRenderer"
                     "vencordDesktopRenderer");
        ("globalName", OStr "Vencord");
        ("sourcemap", OStr (sourcemap (watch c)));
        ("plugins", OPlugins ([GlobPlugins "vencordDesktop"]
                              ++ plugins (commonOpts c)));
        ("define", ODefine (objectLiteral (defines c)
           [ ("IS_WEB", JBool false);
             ("IS_DISCORD_DESKTOP", JBool false);
             ("IS_VESKTOP", JBool true) ])) ];
    objectLiteral (nodeCommonOpts c)
      [ ("entryPoints", OStrs ["src/preload.ts"]);
        ("outfile", OStr "dist/vencordDesktopPreload.js");
        ("footer", footer (watch c) "VencordPreload" "vencordDesktopPreload");
        ("sourcemap", OStr (sourcemap (watch c)));
        ("define", ODefine (objectLiteral (defines c)
           [ ("IS_DISCORD_DESKTOP", JBool false);
             ("IS_VESKTOP", JBool true) ])) ] ].

(** The builds the script starts: [esbuild.build] on each. *)
Definition builds {Bld} (esbuild_build : gmap string OptVal -> Bld)
    (c : Common) : list Bld :=
  map esbuild_build (buildOptions c).

End Mjs.

(* ===================================================================== *)
(** * A sample host *)
(* ===================================================================== *)

Module SampleHost.

Import JS Host.

(** A host whose state is the log of the calls it has received.  It
    knows user ["1"] only, has no guild selected, answers every REST
    request with a profile body, and has a profile cached once a
    [USER_UPDATE] has been dispatched. *)
Definition updated (log : list HostCall) : bool :=
  existsb (fun c => match c with
                    | FluxDispatcher_dispatch e =>
                        bool_decide (is_Some (e !! "user"))
                    | _ => false
                    end) log.

Definition answer (c : HostCall) (log : list HostCall) : Outcome :=
  match c with
  | UserProfileStore_getUserProfile id =>
      if updated log then Returned (JObj {[ "userId" := JStr id ]})
      else Returned JUndefined
  | RestAPI_get _ =>
      Returned (JObj {[ "body" := JObj
        {[ "user" := JObj {[ "id" := JStr "1" ]};
           "guild_member" := JObj ∅ ]} ]})
  | UserUtils_fetchUser id =>
      if String.eqb id "1" then Returned (JObj ∅) else Returned JNull
  | SelectedGuildStore_getGuildId => Returned JNull
  | SelectedChannelStore_getChannelId => Returned (JStr "77")
  | _ => Returned JUndefined
  end.

Definition host : Host :=
  {| world := list HostCall;
     respond := fun c log => (answer c log, log ++ [c]) |}.

(** The name of the host function behind a call. *)
Definition callee (c : HostCall) : string :=
  match c with
  | UserProfileStore_getUserProfile _ => "UserProfileStore.getUserProfile"
  | FluxDispatcher_dispatch _ => "FluxDispatcher.dispatch"
  | RestAPI_get _ => "RestAPI.get"
  | UserUtils_fetchUser _ => "UserUtils.fetchUser"
  | SelectedGuildStore_getGuildId => "SelectedGuildStore.getGuildId"
  | SelectedChannelStore_getChannelId => "SelectedChannelStore.getChannelId"
  | openProfile _ => "openProfile"
  | MessageActions_sendMessage _ _ _ _ => "MessageActions.sendMessage"
  | openModal _ => "openModal"
  end.

End SampleHost.

(* ===================================================================== *)
(** * A sample source tree *)
(* ===================================================================== *)

Module SampleTree.

Import GlobNatives.

(** [src/plugins] holds the plugin directories [a] (with [native.ts]) and
    [c] (with both [native.ts] and [native/index.ts]) and the single-file
    plugin [b.ts]; there is no [src/userplugins]. *)
Definition exists_ (p : string) : bool :=
  bool_decide (p ∈ ["src/plugins"; "src/plugins/a/native.ts";
                    "src/plugins/c/native/index.ts"; "src/plugins/c/native.ts"]).

Definition readdir (p : string) : list Dirent :=
  if String.eqb p "src/plugins"
  then [ {| name := "a"; isDirectory := true |};
         {| name := "b.ts"; isDirectory := false |};
         {| name := "c"; isDirectory := true |} ]
  else [].

Definition resolvePluginName (dirPath : string) (file : Dirent) : string :=
  "Plugin-" +:+ name file.

End SampleTree.

(* ===================================================================== *)
(** * A sample build *)
(* ===================================================================== *)

Module SampleBuild.

Import JS Build.

(** A local development build of version 1.6.5 on Linux, not in watch
    mode, as each of the two scripts is given it by its common.mjs. *)
Definition mts : Mts.Common :=
  {| Mts.BUILD_TIMESTAMP := 1700000000000;
     Mts.buildOpts :=
       {| Mts.external := Some ["~plugins"; "~git-hash"];
          Mts.plugins := Some [CommonPlugin "git-hash-plugin"];
          Mts.others := {[ "logLevel" := OStr "info"; "jsxFactory" := OStr "h" ]} |};
     Mts.IS_DEV := false;
     Mts.IS_REPORTER := false;
     Mts.IS_STANDALONE := false;
     Mts.IS_UPDATER_DISABLED := false;
     Mts.VERSION := "1.6.5";
     Mts.watch := false;
     Mts.process_platform := "linux" |}.

Definition mjs : Mjs.Common :=
  {| Mjs.BUILD_TIMESTAMP := JNum 1700000000000;
     Mjs.commonOpts :=
       {| Mjs.external := ["~plugins"; "~git-hash"];
          Mjs.plugins := [CommonPlugin "git-hash-plugin"];
          Mjs.others := {[ "logLevel" := OStr "info"; "jsxFactory" := OStr "h" ]} |};
     Mjs.isStandalone := JStr "false";
     Mjs.updaterDisabled := JStr "false";
     Mjs.VERSION := "1.6.5";
     Mjs.watch := false;
     Mjs.process_platform := "linux" |}.

End SampleBuild.

(* ===================================================================== *)
(** * The vocabulary of the properties *)
(* ===================================================================== *)

(** [contains s c]: the character [c] occurs in [s]. *)
Fixpoint contains (s : string) (c : ascii) : bool :=
  match s with
  | EmptyString => false
  | String c' s' => Ascii.eqb c' c || contains s' c
  end.

(** Every character of [s] is a word character ([\w]). *)
Fixpoint word_string (s : string) : bool :=
  match s with
  | EmptyString => true
  | String c s' => RegExp.is_word c && word_string s'
  end.

(** [x] is the suffix of [file] matched by [/\.tar\.\w+$/]. *)
Definition tar_extension (file x : string) : Prop :=
  exists pre w, file = pre +:+ x /\ x = ".tar." +:+ w
                /\ w <> EmptyString /\ word_string w = true.

(** [x] is the suffix of [file] that starts at its last ['.']. *)
Definition last_dot_extension (file x : string) : Prop :=
  exists pre suf, file = pre +:+ x /\ x = String "." suf
                  /\ contains suf "." = false.


Definition is_rest (c : Host.HostCall) : bool :=
  match c with Host.RestAPI_get _ => true | _ => false end.

Definition is_dispatch (c : Host.HostCall) : bool :=
  match c with Host.FluxDispatcher_dispatch _ => true | _ => false end.


Section GlobNativesVocabulary.

Import JS GlobNatives.

Variable exists_ : string -> bool.
Variable readdir : string -> list Dirent.
Variable resolvePluginName : string -> Dirent -> string.

(** The directory [src/dir/file] holds [native.ts] or [native/index.ts]. *)
Definition hasNative (dir : string) (file : Dirent) : bool :=
  exists_ (join [join ["src"; dir]; name file; "native.ts"])
  || exists_ (join [join ["src"; dir]; name file; "native/index.ts"]).

(** The entries of the listings of [dirs] that have a native part, each
    with the directory it was found in, in the order of the scan. *)
Definition nativePluginsIn (dirs : list string) : list (string * Dirent) :=
  flat_map (fun dir =>
              if exists_ (join ["src"; dir])
              then map (pair dir)
                     (List.filter (hasNative dir) (readdir (join ["src"; dir])))
              else []) dirs.

Definition nativePlugins : list (string * Dirent) := nativePluginsIn pluginDirs.

(** The import lines and the manifest entries of a list of plugins, the
    first of which gets the module variable [p<i>]. *)
Fixpoint importsText (i : nat) (ps : list (string * Dirent)) : string :=
  match ps with
  | [] => EmptyString
  | (dir, file) :: ps' =>
      ("import * as " +:+ ("p" +:+ numberToString (Z.of_nat i)) +:+ " from "
       +:+ String quote ("./" +:+ dir +:+ "/" +:+ name file +:+ "/native"
       +:+ String quote (";" +:+ String newline EmptyString)))
      +:+ importsText (S i) ps'
  end.

Fixpoint manifestText (i : nat) (ps : list (string * Dirent)) : string :=
  match ps with
  | [] => EmptyString
  | (dir, file) :: ps' =>
      (JSON_stringify_string (resolvePluginName (join ["src"; dir]) file)
       +:+ ":" +:+ ("p" +:+ numberToString (Z.of_nat i)) +:+ ","
       +:+ String newline EmptyString)
      +:+ manifestText (S i) ps'
  end.

End GlobNativesVocabulary.

(** The two scripts build the same bundle: same entry points, output
    file and module format, and the same flags with the same values,
    compared as the text that stands for them. *)
Definition same_bundle (a b : gmap string Build.OptVal) : Prop :=
  Build.entryPoints a = Build.entryPoints b
  /\ Build.outfile a = Build.outfile b
  /\ Build.format a = Build.format b
  /\ forall k, Build.flagText a k = Build.flagText b k.

(** The two scripts are given the same build: what build.mjs imports is
    what build.mts imports under the same name or, for [isStandalone] and
    [updaterDisabled], under the name of the flag, where build.mjs gets as
    text what build.mts turns into text itself.  [IS_DEV] and
    [IS_REPORTER], which only build.mts imports, are left as they are. *)
Definition corresponds (cts : Mts.Common) (cjs : Mjs.Common) : Prop :=
  JS.toString (Mjs.isStandalone cjs)
    = JS.JSON_stringify_bool (Mts.IS_STANDALONE cts)
  /\ Mjs.watch cjs = Mts.watch cts
  /\ JS.toString (Mjs.updaterDisabled cjs)
     = JS.JSON_stringify_bool (Mts.IS_UPDATER_DISABLED cts)
  /\ Mjs.VERSION cjs = Mts.VERSION cts
  /\ JS.toString (Mjs.BUILD_TIMESTAMP cjs)
     = JS.JSON_stringify_number (Mts.BUILD_TIMESTAMP cts)
  /\ Mjs.process_platform cjs = Mts.process_platform cts.

(** What the configurations of one bundle in the two scripts share, and
    where they differ.  [IS_DEV] is the text of [IS_DEV] in build.mts and
    the text of [watch] in build.mjs. *)
Definition agree (cts : Mts.Common) (cjs : Mjs.Common)
    (a b : gmap string Build.OptVal) : Prop :=
  Build.entryPoints a = Build.entryPoints b
  /\ Build.outfile a = Build.outfile b
  /\ Build.format a = Build.format b
  /\ Build.flagText a "IS_DISCORD_DESKTOP" = Build.flagText b "IS_DISCORD_DESKTOP"
  /\ Build.flagText a "IS_VESKTOP" = Build.flagText b "IS_VESKTOP"
  /\ (is_Some (Build.flagText a "IS_REPORTER")
      /\ Build.flagText b "IS_REPORTER" = None)
  /\ (Build.flagText a "IS_EXTENSION" = Some "false"
      /\ Build.flagText b "IS_EXTENSION" = None)
  /\ (Build.flagText a "IS_WEB" = Some "false"
      /\ Build.flagText b "IS_WEB"
         = match Build.roleOf b with
           | Some Build.Renderer => Some "false"
           | _ => None
           end)
  /\ Build.flagText a "IS_DEV"
     = Some (JS.JSON_stringify_bool (Mts.IS_DEV cts))
  /\ Build.flagText b "IS_DEV"
     = Some (JS.JSON_stringify_bool (Mjs.watch cjs))
  /\ (corresponds cts cjs ->
      (forall k, k <> "IS_DEV" -> is_Some (Build.flagText b k) ->
                 Build.flagText a k = Build.flagText b k)
      /\ (Build.flagText a "IS_DEV" = Build.flagText b "IS_DEV"
          <-> Mts.IS_DEV cts = Mts.watch cts)).

(* ===================================================================== *)
(** * The settings of AnonymiseFileNames *)
(* ===================================================================== *)

Module AnonymiseSettings.

Import AnonymiseFileNames.

(** The user changes one setting of the plugin and leaves the rest. *)
Definition setRandomisedLength (e : Env) (n : Z) : Env :=
  {| method := method e; randomisedLength := n; consistent := consistent e;
     random_index := random_index e; date_now := date_now e;
     performance_now := performance_now e |}.

Definition setConsistent (e : Env) (s : string) : Env :=
  {| method := method e; randomisedLength := randomisedLength e; consistent := s;
     random_index := random_index e; date_now := date_now e;
     performance_now := performance_now e |}.

(** The entry [k] of the option schema of a declaration. *)
Definition optionOf (d : gmap string Plugins.Member) (k : string)
    : option Plugins.OptionDef :=
  match d !! "options" with
  | Some (Plugins.MOptions schema) => schema !! k
  | _ => None
  end.

(** The settings page greys an option out when its [disabled] callback
    returns true; an option without the callback is never greyed out. *)
Definition isDisabled (d : gmap string Plugins.Member) (k : string)
    (currentMethod : Z) : bool :=
  match optionOf d k with
  | Some o =>
      match Plugins.disabled o with
      | Some f => f currentMethod
      | None => false
      end
  | None => false
  end.

End AnonymiseSettings.

(* ===================================================================== *)
(** * [src/plugins/oneko.ts]: the script that [oneko.start] evaluates *)
(* ===================================================================== *)

Module OnekoScript.

(** [s] begins with [prefix]. *)
Fixpoint startsWith (prefix s : string) : bool :=
  match prefix, s with
  | EmptyString, _ => true
  | String _ _, EmptyString => false
  | String a prefix', String b s' => Ascii.eqb a b && startsWith prefix' s'
  end.

(** [String.prototype.replace] with a string as pattern: the first
    occurrence is replaced.  The replacement is inserted as it is, which
    is what JavaScript does with a replacement that has no ['$']. *)
Fixpoint replace (s pattern replacement : string) : string :=
  if startsWith pattern s
  then replacement +:+ JS.drop (String.length pattern) s
  else match s with
       | EmptyString => EmptyString
       | String c s' => String c (replace s' pattern replacement)
       end.

Definition onekoGif : string :=
  "https://raw.githubusercontent.com/adryd325/oneko.js/14bab15a755d0e35cd4ae19c931d96d306f99f42/oneko.gif".

(** The second [then] of [oneko.start]: what is handed to [eval] for the
    text [s] of the fetched script. *)
Definition evaluated (s : string) : string :=
  replace s "./oneko.gif" onekoGif.

End OnekoScript.

(* ===================================================================== *)
(** * [src/utils/discord.tsx]: the helpers over the stores *)
(* ===================================================================== *)

Module Stores.

Import JS.

(** The host functions behind the synchronous helpers. *)
Inductive StoreCall :=
| ChannelStore_getChannel (id : JSVal)
| SelectedChannelStore_getChannelId
| GuildStore_getGuild (id : JSVal)
| PrivateChannelsStore_openPrivateChannel (userId : string)
| PreloadedUserSettings_getCurrentValue
| ComponentDispatch_dispatchToLastSubscribed (type : string)
    (payload : gmap string JSVal).

(** Programs over these calls, as [Host.Prog] over the others. *)
Inductive Prog (A : Type) : Type :=
| Ret (a : A)
| Throw (e : Exn)
| Call (c : StoreCall) (k : JSVal -> Prog A).
Arguments Ret {A} a.
Arguments Throw {A} e.
Arguments Call {A} c k.

Fixpoint bind {A B} (p : Prog A) (f : A -> Prog B) : Prog B :=
  match p with
  | Ret a => f a
  | Throw e => Throw e
  | Call c k => Call c (fun v => bind (k v) f)
  end.

Definition call (c : StoreCall) : Prog JSVal := Call c Ret.

(** The stores: some state and the behaviour of their functions on it. *)
Record Stores := {
  world : Type;
  respond : StoreCall -> world -> Host.Outcome * world
}.

(** The result of running a helper: what it returned or threw, the state
    it left, and the calls it made, in order. *)
Record Run (W A : Type) := {
  result : Exn + A;
  final : W;
  trace : list StoreCall
}.
Arguments result {W A} r.
Arguments final {W A} r.
Arguments trace {W A} r.

Fixpoint run {A} (h : Stores) (p : Prog A) (w : world h) : Run (world h) A :=
  match p with
  | Ret a => {| result := inr a; final := w; trace := [] |}
  | Throw e => {| result := inl e; final := w; trace := [] |}
  | Call c k =>
      match respond h c w with
      | (Host.Returned v, w') =>
          let r := run h (k v) w' in
          {| result := result r; final := final r; trace := c :: trace r |}
      | (Host.Thrown e, w') =>
          {| result := inl (HostError e); final := w'; trace := [c] |}
      end
  end.

(** Optional chaining [v?.k]: [undefined] for [undefined] and [null],
    the property otherwise. *)
Definition optChain (v : JSVal) (k : string) : JSVal :=
  match v with
  | JObj o => default JUndefined (o !! k)
  | _ => JUndefined
  end.

Definition getCurrentChannel : Prog JSVal :=
  bind (call SelectedChannelStore_getChannelId) (fun id =>
  call (ChannelStore_getChannel id)).

Definition getCurrentGuild : Prog JSVal :=
  bind getCurrentChannel (fun channel =>
  call (GuildStore_getGuild (optChain channel "guild_id"))).

Definition openPrivateChannel (userId : string) : Prog JSVal :=
  bind (call (PrivateChannelsStore_openPrivateChannel userId)) (fun _ =>
  Ret JUndefined).

(** [const enum Theme { Dark = 1, Light = 2 }] *)
Module Theme.
Definition Dark : Z := 1.
Definition Light : Z := 2.
End Theme.

Definition getTheme : Prog JSVal :=
  bind (call PreloadedUserSettings_getCurrentValue) (fun settings =>
  Ret (optChain (optChain settings "appearance") "theme")).

Definition insertTextIntoChatInputBox (text : string) : Prog JSVal :=
  bind (call (ComponentDispatch_dispatchToLastSubscribed "INSERT_TEXT"
                {[ "rawText" := JStr text; "plainText" := JStr text ]}))
       (fun _ => Ret JUndefined).

End Stores.

(** Stores to run the helpers on: the selected channel is a direct
    message, which has no [guild_id]; [openPrivateChannel] answers with
    the id of the channel it opened. *)
Module SampleStores.

Import JS Stores.

Definition respond (c : StoreCall) (w : unit) : Host.Outcome * unit :=
  match c with
  | SelectedChannelStore_getChannelId => (Host.Returned (JStr "42"), w)
  | ChannelStore_getChannel id =>
      (Host.Returned
         (if strictEqStr id "42"
          then JObj {[ "id" := JStr "42"; "type" := JNum 1 ]}
          else JUndefined), w)
  | GuildStore_getGuild _ => (Host.Returned JUndefined, w)
  | PrivateChannelsStore_openPrivateChannel userId =>
      (Host.Returned (JStr ("dm-" +:+ userId)), w)
  | PreloadedUserSettings_getCurrentValue =>
      (Host.Returned
         (JObj {[ "appearance" := JObj {[ "theme" := JNum Theme.Dark ]} ]}), w)
  | ComponentDispatch_dispatchToLastSubscribed _ _ =>
      (Host.Returned JUndefined, w)
  end.

Definition stores : Stores :=
  {| Stores.world := unit; Stores.respond := respond |}.

End SampleStores.

(* ===================================================================== *)
(** * [scripts/build]: the other members of a configuration *)
(* ===================================================================== *)

Module BuildReaders.

Import Build.

Section Readers.
Implicit Type o : gmap string OptVal.

Definition footer o : option string :=
  match o !! "footer" with Some (OFooter js) => Some js | _ => None end.

Definition sourcemap o : option string :=
  match o !! "sourcemap" with Some (OStr s) => Some s | _ => None end.

Definition platform o : option string :=
  match o !! "platform" with Some (OStr s) => Some s | _ => None end.

Definition globalName o : option string :=
  match o !! "globalName" with Some (OStr s) => Some s | _ => None end.

Definition target o : list string :=
  match o !! "target" with Some (OStrs l) => l | _ => [] end.

Definition external o : list string :=
  match o !! "external" with Some (OStrs l) => l | _ => [] end.
End Readers.

(** The names of the six bundles, as their output files and source maps
    carry them. *)
Definition bundleNames : list string :=
  [ "patcher"; "renderer"; "preload";
    "vencordDesktopMain"; "vencordDesktopRenderer"; "vencordDesktopPreload" ].

(** The keys that one of the two scripts sets in a configuration. *)
Definition scriptKeys : list string :=
  [ "format"; "platform"; "target"; "external"; "define"; "entryPoints";
    "outfile"; "footer"; "sourcemap"; "plugins"; "globalName" ].

(** The argument of [globPlugins] for a distribution. *)
Definition globKind (d : Distribution) : string :=
  match d with
  | DiscordDesktop => "discordDesktop"
  | VencordDesktop => "vencordDesktop"
  end.

End BuildReaders.

(* ===================================================================== *)
(** * The vocabulary of the further properties *)
(* ===================================================================== *)

(** The host answers the calls of [script], made one after the other from
    the state [w], with the outcomes listed, and is left in [w_end]. *)
Fixpoint replies (h : Host.Host) (w : Host.world h)
    (script : list (Host.HostCall * Host.Outcome)) (w_end : Host.world h) : Prop :=
  match script with
  | [] => w_end = w
  | (c, o) :: rest =>
      exists w', Host.respond h c w = (o, w') /\ replies h w' rest w_end
  end.

(** [undefined] and [null], whose properties cannot be read. *)
Definition nullish (v : JS.JSVal) : bool :=
  match v with JS.JUndefined | JS.JNull => true | _ => false end.

(** The request and the events of [fetchUserProfile]. *)
Definition profileRequest (id : string)
    (options : option (gmap string JS.JSVal)) : gmap string JS.JSVal :=
  {[ "url" := JS.JStr ("/users/" +:+ id +:+ "/profile");
     "query" := JS.JObj (JS.spreadOpt
        {[ "with_mutual_guilds" := JS.JBool false;
           "with_mutual_friends_count" := JS.JBool false ]} options);
     "oldFormErrors" := JS.JBool true ]}.

Definition fetchStart (id : string) : gmap string JS.JSVal :=
  {[ "type" := JS.JStr "USER_PROFILE_FETCH_START"; "userId" := JS.JStr id ]}.

Definition userUpdate (user : JS.JSVal) : gmap string JS.JSVal :=
  {[ "type" := JS.JStr "USER_UPDATE"; "user" := user ]}.

Definition fetchSuccess (body : JS.JSVal) : gmap string JS.JSVal :=
  JS.spread {[ "type" := JS.JStr "USER_PROFILE_FETCH_SUCCESS" ]} body.

Definition guildMemberUpdate (guildId guildMember : JS.JSVal)
    : gmap string JS.JSVal :=
  {[ "type" := JS.JStr "GUILD_MEMBER_PROFILE_UPDATE";
     "guildId" := guildId;
     "guildMember" := guildMember ]}.

(* ===================================================================== *)
(** * Properties *)
(* ===================================================================== *)

(** ** Strings *)

Section StringFacts.

Implicit Types (s t : string) (c : ascii).

Lemma app_String c s t : String c s +:+ t = String c (s +:+ t).
Proof. reflexivity. Qed.

Lemma app_empty_l t : EmptyString +:+ t = t.
Proof. reflexivity. Qed.

Lemma string_length_app s t :
  String.length (s +:+ t) = (String.length s + String.length t)%nat.
Proof. induction s as [|c s IH]; [done|]. rewrite app_String. simpl. by rewrite IH. Qed.

Lemma app_empty_r s : s +:+ EmptyString = s.
Proof. induction s as [|c s IH]; [done|]. by rewrite app_String, IH. Qed.

Lemma app_assoc_s s t u : (s +:+ t) +:+ u = s +:+ t +:+ u.
Proof. induction s as [|c s IH]; [done|]. by rewrite !app_String, IH. Qed.

Lemma drop_app s t : JS.drop (String.length s) (s +:+ t) = t.
Proof. induction s as [|c s IH]; [by destruct t|]. exact IH. Qed.

Lemma slice_app s t : JS.slice (s +:+ t) (Z.of_nat (String.length s)) = t.
Proof.
  unfold JS.slice. destruct (Z.ltb_spec (Z.of_nat (String.length s)) 0); [lia|].
  rewrite Nat2Z.id. apply drop_app.
Qed.

Lemma lastIndexOf_ge s c : -1 <= JS.lastIndexOf s c.
Proof.
  induction s as [|c' s IH]; simpl; [lia|].
  destruct (Z.eqb_spec (JS.lastIndexOf s c) (-1)); [|lia].
  destruct (Ascii.eqb c' c); lia.
Qed.

Lemma lastIndexOf_absent s c : contains s c = false -> JS.lastIndexOf s c = -1.
Proof.
  induction s as [|c' s IH]; simpl; [done|].
  intros [Hc Hs]%orb_false_iff. rewrite (IH Hs), Hc. done.
Qed.

Lemma lastIndexOf_app s t c :
  JS.lastIndexOf t c <> -1 ->
  JS.lastIndexOf (s +:+ t) c = Z.of_nat (String.length s) + JS.lastIndexOf t c.
Proof.
  intros Ht. induction s as [|c' s IH]; [rewrite app_empty_l; simpl; lia|].
  rewrite app_String. cbn [JS.lastIndexOf String.length]. rewrite IH.
  pose proof (lastIndexOf_ge t c). cbv zeta.
  destruct (Z.eqb_spec (Z.of_nat (String.length s) + JS.lastIndexOf t c) (-1)); lia.
Qed.

Lemma lastIndexOf_head s c :
  contains s c = false -> JS.lastIndexOf (String c s) c = 0.
Proof.
  intros H. simpl. rewrite (lastIndexOf_absent _ _ H). simpl.
  by rewrite Ascii.eqb_refl.
Qed.

Lemma contains_app s t c : contains (s +:+ t) c = contains s c || contains t c.
Proof.
  induction s as [|c' s IH]; [done|].
  rewrite app_String. simpl. rewrite IH. by rewrite orb_assoc.
Qed.

Lemma word_string_no_dot s : word_string s = true -> contains s "." = false.
Proof.
  induction s as [|c s IH]; simpl; [done|].
  intros [Hc Hs]%andb_true_iff. rewrite (IH Hs), orb_false_r.
  destruct (Ascii.eqb_spec c "."); [subst; discriminate|done].
Qed.

End StringFacts.


(** ** The regular-expression matcher *)

Section RegExpFacts.

Import RegExp.

Lemma exec_from_Some p i s j :
  exec_from p i s = Some j ->
  exists pre suf, s = pre +:+ suf /\ j = (i + String.length pre)%nat
                  /\ match_here p suf = true.
Proof.
  revert i. induction s as [|c s IH]; intros i; simpl.
  - destruct (match_here p EmptyString) eqn:E; [|done].
    intros [= <-]. exists EmptyString, EmptyString. simpl. auto with lia.
  - destruct (match_here p (String c s)) eqn:E.
    + intros [= <-]. exists EmptyString, (String c s). simpl. auto with lia.
    + intros (pre & suf & -> & -> & Hm)%IH.
      exists (String c pre), suf. rewrite app_String. simpl. auto with lia.
Qed.

Lemma exec_from_None p i s :
  exec_from p i s = None ->
  forall pre suf, s = pre +:+ suf -> match_here p suf = false.
Proof.
  revert i. induction s as [|c s IH]; intros i; simpl.
  - destruct (match_here p EmptyString) eqn:E; [done|].
    intros _ [|? ?] suf; [|done]. rewrite app_empty_l. by intros <-.
  - destruct (match_here p (String c s)) eqn:E; [done|].
    intros Hn [|c' pre] suf.
    + rewrite app_empty_l. by intros <-.
    + rewrite app_String. intros [= -> ->]. by eapply IH.
Qed.

(** [\w+$]: one or more word characters up to the end of the input. *)
Lemma word_plus_end s :
  match_here [WordPlus; EndOfInput] s
  = match s with EmptyString => false | String _ _ => word_string s end.
Proof.
  induction s as [|c s IH]; [done|].
  change (match_here [WordPlus; EndOfInput] (String c s))
    with (is_word c && (match_here [WordPlus; EndOfInput] s
                        || match_here [EndOfInput] s)).
  rewrite IH. destruct s; simpl; [by rewrite andb_true_r|].
  by rewrite orb_false_r.
Qed.

(** A match of [/\.tar\.\w+$/] at the start of [s] is [".tar."]
    followed by a non-empty run of word characters that ends [s]. *)
Lemma tarExtMatcher_here s :
  match_here AnonymiseFileNames.tarExtMatcher s = true <->
  exists w, s = ".tar." +:+ w /\ w <> EmptyString /\ word_string w = true.
Proof.
  unfold AnonymiseFileNames.tarExtMatcher. split.
  - destruct s as [|c1 [|c2 [|c3 [|c4 [|c5 w]]]]];
      cbn [match_here]; rewrite ?andb_false_r; try done.
    change (match_here (WordPlus :: ?p) ?s) with (match_here (WordPlus :: p) s).
    intros H. repeat (apply andb_true_iff in H; destruct H as [?%Ascii.eqb_eq H]).
    subst. fold (match_here [WordPlus; EndOfInput] w) in H.
    rewrite word_plus_end in H. exists w. split; [done|].
    destruct w; [done|]. by split.
  - intros (w & -> & Hne & Hw). cbn [match_here String.app String.append].
    change (".tar." +:+ w) with (String "." (String "t" (String "a" (String "r" (String "." w))))).
    cbn [Ascii.eqb Bool.eqb andb].
    fold (match_here [WordPlus; EndOfInput] w).
    rewrite word_plus_end. by destruct w.
Qed.

End RegExpFacts.

(** ** [AnonymiseFileNames.anonymise] *)

Section AnonymiseFacts.

Import AnonymiseFileNames.

Lemma tar_extension_lastIndexOf file x :
  tar_extension file x ->
  JS.lastIndexOf file "." = Z.of_nat (String.length file - String.length x) + 4.
Proof.
  intros (pre & w & -> & -> & _ & Hw).
  assert (Hd : JS.lastIndexOf (".tar." +:+ w) "." = 4).
  { change (".tar." +:+ w) with (".tar" +:+ String "." w).
    rewrite lastIndexOf_app; rewrite lastIndexOf_head;
      auto using word_string_no_dot. }
  rewrite lastIndexOf_app by lia. rewrite Hd.
  by rewrite string_length_app, Nat.add_sub.
Qed.

Lemma tar_extension_exec file x :
  tar_extension file x ->
  RegExp.exec tarExtMatcher file
  = Some (String.length file - String.length x)%nat.
Proof.
  intros Hx. pose proof (tar_extension_lastIndexOf _ _ Hx) as Hl.
  destruct Hx as (pre & w & Hf & Hx & Hne & Hw).
  unfold RegExp.exec. destruct (RegExp.exec_from _ _ _) as [j|] eqn:E.
  - apply exec_from_Some in E as (pre' & suf' & Hf' & -> & Hm).
    apply tarExtMatcher_here in Hm as (w' & Hs' & Hne' & Hw').
    assert (Hx' : tar_extension file suf') by (by exists pre', w').
    apply tar_extension_lastIndexOf in Hx'. f_equal.
    assert (String.length file = String.length pre' + String.length suf')%nat
      by (by rewrite Hf', string_length_app).
    assert (String.length file = String.length pre + String.length x)%nat
      by (by rewrite Hf, string_length_app).
    lia.
  - eapply exec_from_None in E; [|exact Hf].
    assert (RegExp.match_here tarExtMatcher x = true); [|congruence].
    apply tarExtMatcher_here. by exists w.
Qed.

Lemma no_tar_extension_exec file :
  (forall x, ~ tar_extension file x) -> RegExp.exec tarExtMatcher file = None.
Proof.
  intros Hno. unfold RegExp.exec.
  destruct (RegExp.exec_from _ _ _) as [j|] eqn:E; [|done].
  apply exec_from_Some in E as (pre & suf & Hf & _ & Hm).
  apply tarExtMatcher_here in Hm as (w & ? & ? & ?).
  destruct (Hno suf). by exists pre, w.
Qed.

(** [Array.from] throws on a length of [2^32] or more and maps over the
    indices below the length otherwise. *)
Lemma arrayFrom_throws {A} n (f : nat -> A) :
  2 ^ 32 <= n -> JS.arrayFrom n f = inl JS.RangeError.
Proof.
  intros Hn. unfold JS.arrayFrom, JS.toLength.
  change (2 ^ 32) with 4294967296 in *.
  change (2 ^ 53) with 9007199254740992.
  destruct (Z.ltb_spec (4294967296 - 1)
              (Z.min (Z.max n 0) (9007199254740992 - 1))); [done|lia].
Qed.

Lemma arrayFrom_returns {A} n (f : nat -> A) :
  n < 2 ^ 32 -> JS.arrayFrom n f = inr (map f (seq 0 (Z.to_nat n))).
Proof.
  intros Hn. unfold JS.arrayFrom, JS.toLength.
  change (2 ^ 32) with 4294967296 in *.
  change (2 ^ 53) with 9007199254740992.
  destruct (Z.ltb_spec (4294967296 - 1)
              (Z.min (Z.max n 0) (9007199254740992 - 1))); [lia|].
  do 3 f_equal. lia.
Qed.

(** The name is not made exactly when the Random method is given a
    length that [Array.from] refuses. *)
Lemma name_throws e :
  method e = Methods.Random -> 2 ^ 32 <= randomisedLength e ->
  name e = inl JS.RangeError.
Proof.
  intros Hm Hl. unfold name. rewrite Hm, Z.eqb_refl.
  by rewrite arrayFrom_throws.
Qed.


End AnonymiseFacts.



(** ** [src/utils/discord.tsx] *)

Section DiscordFacts.

Import JS Host Discord.



End DiscordFacts.

(** Destructs the next answer of the host in the goal. *)
Ltac host_answer :=
  match goal with
  | |- context [Host.respond ?h ?c ?w] =>
      let v := fresh "v" in
      let e := fresh "e" in
      let w' := fresh "w" in
      destruct (Host.respond h c w) as [[v|e] w'] eqn:?; cbn
  end.

(** C10.  [getUniqueUsername] returns [user.username] when the
    discriminator is the string ["0"] and [user.tag] otherwise; when the
    two fields differ, it returns the user name exactly in that case. *)
Theorem getUniqueUsername_spec (user : Discord.User) :
  (Discord.discriminator user = "0" ->
     Discord.getUniqueUsername user = Discord.username user)
  /\ (Discord.discriminator user <> "0" ->
      Discord.getUniqueUsername user = Discord.tag user)
  /\ (Discord.tag user <> Discord.username user ->
      (Discord.getUniqueUsername user = Discord.username user
       <-> Discord.discriminator user = "0")).
Proof.
  unfold Discord.getUniqueUsername.
  destruct (String.eqb_spec (Discord.discriminator user) "0") as [E|E];
    repeat split; try done; intros; congruence.
Qed.

Lemma getUniqueUsername_spec_witness :
  Discord.getUniqueUsername
    {| Discord.username := "ven"; Discord.discriminator := "0";
       Discord.tag := "ven#0" |} = "ven"
  /\ Discord.getUniqueUsername
       {| Discord.username := "ven"; Discord.discriminator := "0042";
          Discord.tag := "ven#0042" |} = "ven#0042".
Proof.
  split.
  - by apply (proj1 (getUniqueUsername_spec
      {| Discord.username := "ven"; Discord.discriminator := "0";
         Discord.tag := "ven#0" |})).
  - by apply (proj1 (proj2 (getUniqueUsername_spec
      {| Discord.username := "ven"; Discord.discriminator := "0042";
         Discord.tag := "ven#0042" |}))).
Defined.

(** C9.  When the profile store already holds a profile object for the
    user, [fetchUserProfile] returns that object; the only host call it
    makes is the store read, so nothing is dispatched, no REST request is
    sent, and the host is left in the state in which the read left it. *)
Theorem fetchUserProfile_cached (h : Host.Host) (w w' : Host.world h)
    (id : string) (options : option (gmap string JS.JSVal))
    (profile : gmap string JS.JSVal) :
  Host.respond h (Host.UserProfileStore_getUserProfile id) w
    = (Host.Returned (JS.JObj profile), w') ->
  let r := Host.run h (Discord.fetchUserProfile id options) w in
  Host.result r = inr (JS.JObj profile)
  /\ Host.final r = w'
  /\ Host.trace r = [Host.UserProfileStore_getUserProfile id]
  /\ Forall (fun c => is_dispatch c = false /\ is_rest c = false) (Host.trace r).
Proof.
  intros Hc. cbn. rewrite Hc. cbn. repeat split; try done.
  by repeat constructor.
Qed.

Lemma fetchUserProfile_cached_witness :
  let w := [Host.FluxDispatcher_dispatch
              {[ "type" := JS.JStr "USER_UPDATE";
                 "user" := JS.JObj ∅ ]}] in
  let r := Host.run SampleHost.host (Discord.fetchUserProfile "1" None) w in
  Host.result r = inr (JS.JObj {[ "userId" := JS.JStr "1" ]})
  /\ Host.final r = w ++ [Host.UserProfileStore_getUserProfile "1"]
  /\ Host.trace r = [Host.UserProfileStore_getUserProfile "1"]
  /\ Forall (fun c => is_dispatch c = false /\ is_rest c = false) (Host.trace r).
Proof.
  intros w.
  apply (fetchUserProfile_cached SampleHost.host w
           (w ++ [Host.UserProfileStore_getUserProfile "1"]) "1" None
           {[ "userId" := JS.JStr "1" ]}).
  reflexivity.
Defined.


(** Takes the run of a helper apart, one host answer or test at a time. *)
Ltac helper_cases :=
  repeat first
    [ host_answer
    | match goal with
      | |- context [JS.truthy ?v] => destruct (JS.truthy v) eqn:?; cbn
      | |- context [JS.getProp ?v ?k] => destruct (JS.getProp v k) eqn:?; cbn
      end ].



(** ** The plugin declarations *)




(** C3.  When the [start] or [stop] hook of a plugin throws, the call of
    the plugin manager still completes normally, and the user is told
    which plugin failed, in which hook, and with which exception. *)
Theorem hook_exception_reported (d : gmap string Plugins.Member)
    (ph : Plugins.Lifecycle) (hook : Plugins.Page -> option JS.Exn * Plugins.Page)
    (m : Plugins.Manager) (e : JS.Exn) (p' : Plugins.Page) :
  d !! Plugins.hookName ph = Some (Plugins.MHook hook) ->
  hook (Plugins.page m) = (Some e, p') ->
  fst (Plugins.runLifecycle d ph m) = Plugins.Normal
  /\ Plugins.reports (snd (Plugins.runLifecycle d ph m))
     = Plugins.reports m
       ++ [{| Plugins.plugin := Plugins.nameOf d; Plugins.phase := ph;
              Plugins.error := e |}].
Proof.
  intros Hd Hh. unfold Plugins.runLifecycle, Plugins.hookOf.
  rewrite Hd, Hh. done.
Qed.

Lemma hook_exception_reported_witness :
  let broken : gmap string Plugins.Member :=
    {[ "name" := Plugins.MString "broken";
       "stop" := Plugins.MHook (fun p => (Some (JS.Error "boom"), p)) ]} in
  let m := {| Plugins.page := {| Plugins.timers := []; Plugins.onekoInterval := None;
                                 Plugins.elements := []; Plugins.fetches := [] |};
              Plugins.reports := [] |} in
  fst (Plugins.runLifecycle broken Plugins.Stop m) = Plugins.Normal
  /\ Plugins.reports (snd (Plugins.runLifecycle broken Plugins.Stop m))
     = [{| Plugins.plugin := "broken"; Plugins.phase := Plugins.Stop;
           Plugins.error := JS.Error "boom" |}].
Proof.
  intros broken m.
  apply (hook_exception_reported broken Plugins.Stop
           (fun p => (Some (JS.Error "boom"), p)) m (JS.Error "boom")
           (Plugins.page m)); reflexivity.
Defined.

(** ** [globNativesPlugin] *)

Section GlobNativesFacts.

Import JS GlobNatives.

Variable exists_ : string -> bool.
Variable readdir : string -> list Dirent.
Variable resolvePluginName : string -> Dirent -> string.

Lemma importsText_app i ps qs :
  importsText i (ps ++ qs)
  = importsText i ps +:+ importsText (i + length ps) qs.
Proof.
  revert i. induction ps as [|[dir file] ps IH]; intros i.
  - simpl. by rewrite Nat.add_0_r.
  - cbn [app importsText length]. rewrite IH, Nat.add_succ_r. cbn [Nat.add].
    by rewrite !app_assoc_s.
Qed.

Lemma manifestText_app i ps qs :
  manifestText resolvePluginName i (ps ++ qs)
  = manifestText resolvePluginName i ps +:+ manifestText resolvePluginName (i + length ps) qs.
Proof.
  revert i. induction ps as [|[dir file] ps IH]; intros i.
  - simpl. by rewrite Nat.add_0_r.
  - cbn [app manifestText length]. rewrite IH, Nat.add_succ_r. cbn [Nat.add].
    by rewrite !app_assoc_s.
Qed.

(** One round of the inner loop: a file with a native part adds its two
    lines and takes the next module variable, any other file is skipped. *)
Lemma visit_eq dir st file :
  visit exists_ resolvePluginName dir (join ["src"; dir]) st file
  = if hasNative exists_ dir file
    then {| code := code st +:+ importsText (i st) [(dir, file)];
            natives := natives st +:+ manifestText resolvePluginName (i st) [(dir, file)];
            i := S (i st) |}
    else st.
Proof.
  unfold visit, hasNative.
  destruct (exists_ (join [join ["src"; dir]; name file; "native.ts"]));
    destruct (exists_ (join [join ["src"; dir]; name file; "native/index.ts"]));
    cbn [negb andb orb importsText manifestText]; by rewrite ?app_empty_r.
Qed.

(** The inner loop adds the lines of the files that have a native part. *)
Lemma visit_fold dir files st :
  let found := map (pair dir) (List.filter (hasNative exists_ dir) files) in
  fold_left (visit exists_ resolvePluginName dir (join ["src"; dir])) files st
  = {| code := code st +:+ importsText (i st) found;
       natives := natives st +:+ manifestText resolvePluginName (i st) found;
       i := i st + length found |}.
Proof.
  revert st. induction files as [|file files IH]; intros st; cbn zeta.
  - simpl. rewrite !app_empty_r, Nat.add_0_r. by destruct st.
  - cbn [fold_left List.filter]. rewrite IH, visit_eq. cbn zeta.
    destruct (hasNative exists_ dir file); [|done].
    cbn [code natives i map length importsText manifestText Nat.add].
    by rewrite ?app_empty_r, !app_assoc_s, Nat.add_succ_r.
Qed.

Lemma nativePluginsIn_cons dir dirs :
  nativePluginsIn exists_ readdir (dir :: dirs) = nativePluginsIn exists_ readdir [dir] ++ nativePluginsIn exists_ readdir dirs.
Proof. unfold nativePluginsIn. cbn [flat_map]. by rewrite app_nil_r. Qed.

(** One round of the outer loop. *)
Lemma scan_eq st dir :
  scan exists_ readdir resolvePluginName st dir
  = {| code := code st +:+ importsText (i st) (nativePluginsIn exists_ readdir [dir]);
       natives := natives st +:+ manifestText resolvePluginName (i st) (nativePluginsIn exists_ readdir [dir]);
       i := i st + length (nativePluginsIn exists_ readdir [dir]) |}.
Proof.
  unfold scan, nativePluginsIn. cbn [flat_map]. rewrite app_nil_r.
  destruct (exists_ (join ["src"; dir])); cbn [negb].
  - apply visit_fold.
  - simpl. rewrite !app_empty_r, Nat.add_0_r. by destruct st.
Qed.

(** The outer loop does so for every directory that exists. *)
Lemma scan_fold dirs st :
  fold_left (scan exists_ readdir resolvePluginName) dirs st
  = {| code := code st +:+ importsText (i st) (nativePluginsIn exists_ readdir dirs);
       natives := natives st +:+ manifestText resolvePluginName (i st) (nativePluginsIn exists_ readdir dirs);
       i := i st + length (nativePluginsIn exists_ readdir dirs) |}.
Proof.
  revert st. induction dirs as [|dir dirs IH]; intros st.
  - simpl. rewrite !app_empty_r, Nat.add_0_r. by destruct st.
  - cbn [fold_left]. rewrite IH, scan_eq. cbn [code natives i].
    rewrite (nativePluginsIn_cons dir dirs).
    rewrite importsText_app, manifestText_app, List.length_app.
    by rewrite !app_assoc_s, Nat.add_assoc.
Qed.

Lemma nativePluginsIn_elem dirs dir file :
  (dir, file) ∈ nativePluginsIn exists_ readdir dirs <->
  dir ∈ dirs /\ exists_ (join ["src"; dir]) = true
  /\ file ∈ readdir (join ["src"; dir]) /\ hasNative exists_ dir file = true.
Proof.
  unfold nativePluginsIn. rewrite list_elem_of_In, in_flat_map. split.
  - intros (d & Hd & Hin). destruct (exists_ (join ["src"; d])) eqn:E; [|done].
    apply in_map_iff in Hin as (f & [= -> ->] & Hf).
    apply filter_In in Hf as [Hf Hn].
    by rewrite !list_elem_of_In.
  - intros (Hd & E & Hf & Hn). exists dir. rewrite <- list_elem_of_In.
    split; [done|]. rewrite E. apply in_map, filter_In.
    by rewrite <- list_elem_of_In.
Qed.

End GlobNativesFacts.

Lemma NoDup_tagged_filter {A B} (b : B) (f : A -> bool) (l : list A) :
  NoDup l -> NoDup (map (pair b) (List.filter f l)).
Proof.
  induction l as [|x l IH]; [constructor|].
  intros [Hx Hl]%NoDup_cons. cbn [List.filter].
  destruct (f x); [|by apply IH]. cbn [map]. apply NoDup_cons. split.
  - rewrite list_elem_of_In, in_map_iff. intros (y & [= ->] & Hy).
    apply filter_In in Hy as [Hy _]. by apply list_elem_of_In in Hy.
  - by apply IH.
Qed.

Lemma nativePluginsIn_NoDup exists_ readdir dirs :
  NoDup dirs ->
  (forall d, d ∈ dirs -> NoDup (readdir (GlobNatives.join ["src"; d]))) ->
  NoDup (nativePluginsIn exists_ readdir dirs).
Proof.
  induction dirs as [|dir dirs IH]; intros Hd Hl; [constructor|].
  rewrite nativePluginsIn_cons. apply NoDup_app. split; [|split].
  - unfold nativePluginsIn. cbn [flat_map]. rewrite app_nil_r.
    destruct (exists_ _); [|constructor].
    apply NoDup_tagged_filter, Hl, list_elem_of_here.
  - intros [d f] (Hin & _)%nativePluginsIn_elem (Hin' & _)%nativePluginsIn_elem.
    apply list_elem_of_singleton in Hin as ->.
    by apply NoDup_cons in Hd as [? _].
  - apply NoDup_cons in Hd as [_ Hd]. apply IH; [done|].
    intros d Hin. by apply Hl, list_elem_of_further.
Qed.

(** C4.  The module that [globNativesPlugin] generates is the outcome of
    a scan of [src/plugins] and [src/userplugins]: a directory that does
    not exist is skipped; an entry of a listing gets an import line and a
    manifest entry, keyed by its resolved plugin name, if and only if it
    holds [native.ts] or [native/index.ts]; and it gets them once. *)
Theorem globNatives_manifest (exists_ : string -> bool)
    (readdir : string -> list GlobNatives.Dirent)
    (resolvePluginName : string -> GlobNatives.Dirent -> string) :
  let ps := nativePlugins exists_ readdir in
  GlobNatives.contents (GlobNatives.onLoad exists_ readdir resolvePluginName)
  = importsText 0 ps
    +:+ "export default {"
    +:+ String JS.newline (manifestText resolvePluginName 0 ps) +:+ "};"
  /\ (forall dir file,
        (dir, file) ∈ ps <->
        (dir = "plugins" \/ dir = "userplugins")
        /\ exists_ (GlobNatives.join ["src"; dir]) = true
        /\ file ∈ readdir (GlobNatives.join ["src"; dir])
        /\ (exists_ (GlobNatives.join [GlobNatives.join ["src"; dir];
                                       GlobNatives.name file; "native.ts"]) = true
            \/ exists_ (GlobNatives.join [GlobNatives.join ["src"; dir];
                                          GlobNatives.name file;
                                          "native/index.ts"]) = true))
  /\ (NoDup (readdir (GlobNatives.join ["src"; "plugins"])) ->
      NoDup (readdir (GlobNatives.join ["src"; "userplugins"])) ->
      NoDup ps).
Proof.
  intros ps. split; [|split].
  - unfold GlobNatives.onLoad. rewrite scan_fold.
    cbn [GlobNatives.contents GlobNatives.code GlobNatives.natives
         GlobNatives.i Nat.add].
    fold (nativePlugins exists_ readdir). fold ps.
    by rewrite app_empty_l, !app_assoc_s.
  - intros dir file. unfold ps, nativePlugins. rewrite nativePluginsIn_elem.
    unfold hasNative, GlobNatives.pluginDirs. rewrite orb_true_iff.
    rewrite !elem_of_cons, elem_of_nil. tauto.
  - intros H1 H2. apply nativePluginsIn_NoDup.
    + unfold GlobNatives.pluginDirs. apply NoDup_cons. split.
      * rewrite list_elem_of_singleton. discriminate.
      * apply NoDup_singleton.
    + intros d. unfold GlobNatives.pluginDirs.
      rewrite !elem_of_cons, elem_of_nil. by intros [->|[->|[]]].
Qed.

Lemma globNatives_manifest_witness :
  NoDup (nativePlugins SampleTree.exists_ SampleTree.readdir).
Proof.
  apply (proj2 (proj2 (globNatives_manifest SampleTree.exists_
                         SampleTree.readdir SampleTree.resolvePluginName))).
  - by apply (bool_decide_unpack _).
  - by apply (bool_decide_unpack _).
Defined.

(** ** The build scripts *)

Section BuildFacts.

Import JS Build.

Lemma objectLiteral_lookup {V} (base : gmap string V) members k :
  objectLiteral base members !! k
  = match assigned k members with
    | Some v => Some v
    | None => base !! k
    end.
Proof.
  unfold objectLiteral. revert base.
  induction members as [|[k' v] rest IH]; intros base; [done|].
  cbn [fold_left assigned fst snd]. rewrite IH.
  destruct (assigned k rest); [done|].
  destruct (String.eqb_spec k' k) as [->|Hne].
  - apply lookup_insert_eq.
  - by apply lookup_insert_ne.
Qed.

Lemma define_objectLiteral base members d :
  assigned "define" members = Some (ODefine d) ->
  define (objectLiteral base members) = d.
Proof. intros H. unfold define. by rewrite objectLiteral_lookup, H. Qed.

Lemma outfile_objectLiteral base members f :
  assigned "outfile" members = Some (OStr f) ->
  outfile (objectLiteral base members) = Some f.
Proof. intros H. unfold outfile. by rewrite objectLiteral_lookup, H. Qed.

Lemma entryPoints_objectLiteral base members l :
  assigned "entryPoints" members = Some (OStrs l) ->
  entryPoints (objectLiteral base members) = l.
Proof. intros H. unfold entryPoints. by rewrite objectLiteral_lookup, H. Qed.

Lemma format_objectLiteral base members f :
  assigned "format" members = Some (OStr f) ->
  format (objectLiteral base members) = Some f.
Proof. intros H. unfold format. by rewrite objectLiteral_lookup, H. Qed.

Lemma format_inherited base members :
  assigned "format" members = None ->
  format (objectLiteral base members) = format base.
Proof. intros H. unfold format. by rewrite objectLiteral_lookup, H. Qed.

End BuildFacts.

(** Reads a member off a configuration written as an object literal. *)
Ltac read_members :=
  unfold Build.bundleOf, Build.roleOf, Build.distributionOf, Build.flagText,
    Mts.nodeBuildOpts, Mjs.nodeCommonOpts;
  repeat first
    [ erewrite define_objectLiteral by reflexivity
    | erewrite outfile_objectLiteral by reflexivity
    | erewrite entryPoints_objectLiteral by reflexivity
    | erewrite format_objectLiteral by reflexivity
    | erewrite format_inherited by reflexivity
    | rewrite objectLiteral_lookup; cbn [Build.assigned String.eqb Ascii.eqb
                                          Bool.eqb] ].

(** C5.  Both scripts start exactly six builds, one for each of their
    configurations in turn: build.mts a build on the context made for the
    configuration, build.mjs [esbuild.build] on the configuration.  The
    six configurations of either script are one for each combination of
    main process, renderer and preload with Discord Desktop and Vencord
    Desktop, and the six output files, all under [dist/], differ from one
    another. *)
Theorem six_bundles {Ctx Bld WatchOpts : Type}
    (makeContextPromise : gmap string Build.OptVal -> Ctx)
    (makeBuildPromise : Ctx -> option (gmap string Build.OptVal) -> WatchOpts -> Bld)
    (watchOpts : WatchOpts)
    (esbuild_build : gmap string Build.OptVal -> Bld)
    (cts : Mts.Common) (cjs : Mjs.Common) :
  (Mts.builds makeContextPromise makeBuildPromise watchOpts cts
   = map (fun o => makeBuildPromise (makeContextPromise o) (Some o) watchOpts)
         (Mts.buildOptions cts)
   /\ Mjs.builds esbuild_build cjs
      = map esbuild_build (Mjs.buildOptions cjs)
   /\ length (Mts.builds makeContextPromise makeBuildPromise watchOpts cts) = 6%nat
   /\ length (Mjs.builds esbuild_build cjs) = 6%nat)
  /\ (map Build.bundleOf (Mts.buildOptions cts) = Build.sixBundles
      /\ map Build.bundleOf (Mjs.buildOptions cjs) = Build.sixBundles)
  /\ (map Build.outfile (Mts.buildOptions cts) = Build.sixOutfiles
      /\ map Build.outfile (Mjs.buildOptions cjs) = Build.sixOutfiles)
  /\ NoDup Build.sixBundles
  /\ NoDup Build.sixOutfiles
  /\ Forall (fun f => exists name, f = Some ("dist/" +:+ name)) Build.sixOutfiles.
Proof.
  split; [|split; [|split; [|split; [|split]]]].
  - done.
  - split; unfold Mts.buildOptions, Mjs.buildOptions, Mts.desktopDefine;
      cbn [map]; read_members; reflexivity.
  - split; unfold Mts.buildOptions, Mjs.buildOptions; cbn [map];
      read_members; reflexivity.
  - by apply (bool_decide_unpack _).
  - by apply (bool_decide_unpack _).
  - unfold Build.sixOutfiles. repeat constructor; by eexists.
Qed.

(** C7.  In each of the six configurations of either script, one of the
    flags [IS_DISCORD_DESKTOP] and [IS_VESKTOP] is defined as true and the
    other as false. *)
Theorem distribution_flags_exclusive (cts : Mts.Common) (cjs : Mjs.Common) :
  Forall (fun o =>
            exists d v,
              Build.define o !! "IS_DISCORD_DESKTOP" = Some d
              /\ Build.define o !! "IS_VESKTOP" = Some v
              /\ ((Build.definedAs d true /\ Build.definedAs v false)
                  \/ (Build.definedAs d false /\ Build.definedAs v true)))
         (Mts.buildOptions cts ++ Mjs.buildOptions cjs)
  /\ length (Mts.buildOptions cts ++ Mjs.buildOptions cjs) = 12%nat.
Proof.
  split; [|done].
  unfold Mts.buildOptions, Mjs.buildOptions, Mts.desktopDefine,
    Build.definedAs.
  cbn [app]. repeat apply Forall_cons_2; try apply Forall_nil_2;
    eexists _, _; read_members;
    (split; [reflexivity|split; [reflexivity|]]); cbn; auto.
Qed.

Lemma sample_corresponds : corresponds SampleBuild.mts SampleBuild.mjs.
Proof. by repeat split. Qed.

(** C6, as stated, fails: given the same build, build.mts defines
    [IS_REPORTER] for the patcher bundle and build.mjs does not. *)
Lemma build_scripts_not_equivalent :
  corresponds SampleBuild.mts SampleBuild.mjs
  /\ ~ Forall2 same_bundle (Mts.buildOptions SampleBuild.mts)
                           (Mjs.buildOptions SampleBuild.mjs).
Proof.
  split; [exact sample_corresponds|]. intros H.
  apply Forall2_cons_1 in H as [(_ & _ & _ & H) _].
  specialize (H "IS_REPORTER"). vm_compute in H. discriminate H.
Qed.

(** Splits on whether the key [k] is one of the keys in the goal. *)
Ltac key_cases k :=
  repeat match goal with
         | |- context [String.eqb ?a k] =>
             destruct (String.eqb_spec a k) as [<-|?]; cbv beta iota
         end;
  cbn.

(** [{ ...m, k: v }] read as an object literal. *)
Lemma insert_objectLiteral {V} (m : gmap string V) k v :
  <[k:=v]> m = Build.objectLiteral m [(k, v)].
Proof. done. Qed.

(** Given the same build, a flag other than [IS_DEV] that build.mjs
    takes from its shared [defines] has the same text in the [defines]
    of build.mts. *)
Lemma defines_agree cts cjs k :
  corresponds cts cjs ->
  k <> "IS_DEV" ->
  is_Some (Mjs.defines cjs !! k) ->
  JS.toString <$> (Mts.defines cts !! k) = JS.toString <$> (Mjs.defines cjs !! k).
Proof.
  intros (Hs & Hw & Hu & Hv & Hb & Hp) Hk.
  unfold Mts.defines, Mjs.defines. rewrite !objectLiteral_lookup.
  cbn [Build.assigned String.eqb Ascii.eqb Bool.eqb default]. unfold id.
  rewrite Hv, Hp.
  assert (Hpp : JS.strictEqStr (Mjs.isStandalone cjs) "false" = true ->
                Mts.IS_STANDALONE cts = false).
  { destruct (Mjs.isStandalone cjs); try done. cbn.
    intros ->%String.eqb_eq. cbn in Hs. by destruct (Mts.IS_STANDALONE cts). }
  destruct (JS.strictEqStr (Mjs.isStandalone cjs) "false") eqn:E.
  - rewrite (Hpp eq_refl) in Hs |- *.
    cbn [JS.JSON_stringify_bool JS.strictEqStr String.eqb Ascii.eqb Bool.eqb].
    rewrite !insert_objectLiteral, !objectLiteral_lookup.
    cbn [Build.assigned].
    key_cases k; rewrite ?lookup_empty, ?Hs, ?Hu, ?Hb; cbn;
      solve [done | by intros [? [=]]].
  - clear Hpp.
    destruct (Mts.IS_STANDALONE cts);
      cbn [JS.JSON_stringify_bool JS.strictEqStr String.eqb Ascii.eqb Bool.eqb];
      rewrite ?insert_objectLiteral, !objectLiteral_lookup;
      cbn [Build.assigned];
      key_cases k; rewrite ?lookup_empty, ?Hs, ?Hu, ?Hb; cbn;
      solve [done | by intros [? [=]]].
Qed.

Lemma flagText_objectLiteral base members d k :
  Build.assigned "define" members = Some (Build.ODefine d) ->
  Build.flagText (Build.objectLiteral base members) k = JS.toString <$> (d !! k).
Proof. intros H. unfold Build.flagText. by erewrite define_objectLiteral. Qed.

(** The flags that only build.mts puts into its shared [defines]. *)
Lemma mts_defines_only cts :
  Mts.defines cts !! "IS_REPORTER"
    = Some (JS.JStr (JS.JSON_stringify_bool (Mts.IS_REPORTER cts)))
  /\ Mts.defines cts !! "IS_EXTENSION" = Some (JS.JStr "false")
  /\ Mts.defines cts !! "IS_WEB" = Some (JS.JStr "false").
Proof.
  unfold Mts.defines.
  destruct (JS.strictEqStr _ _);
    rewrite ?insert_objectLiteral, !objectLiteral_lookup; by cbn.
Qed.

(** [IS_DEV] in the shared [defines] of each script. *)
Lemma defines_is_dev cts cjs :
  Mts.defines cts !! "IS_DEV"
    = Some (JS.JStr (JS.JSON_stringify_bool (Mts.IS_DEV cts)))
  /\ Mjs.defines cjs !! "IS_DEV"
     = Some (JS.JStr (JS.JSON_stringify_bool (Mjs.watch cjs))).
Proof.
  unfold Mts.defines, Mjs.defines.
  split; destruct (JS.strictEqStr _ _);
    rewrite ?insert_objectLiteral, !objectLiteral_lookup; by cbn.
Qed.

Lemma stringify_bool_inj a b :
  JS.JSON_stringify_bool a = JS.JSON_stringify_bool b <-> a = b.
Proof. by destruct a, b. Qed.

Lemma mjs_defines_without cjs k :
  k ∈ ["IS_REPORTER"; "IS_EXTENSION"; "IS_WEB"] -> Mjs.defines cjs !! k = None.
Proof.
  rewrite !elem_of_cons, elem_of_nil. unfold Mjs.defines.
  intros [->|[->|[->|[]]]]; destruct (JS.strictEqStr _ _);
    rewrite ?insert_objectLiteral, !objectLiteral_lookup; by cbn.
Qed.

(** Settles [agree] for one pair of configurations. *)
Ltac agree_bundle cts cjs :=
  unfold agree, Mts.desktopDefine;
  repeat match goal with |- _ /\ _ => split end;
  [ by read_members | by read_members | by read_members
  | by read_members | by read_members
  | erewrite flagText_objectLiteral by reflexivity;
    rewrite objectLiteral_lookup; cbn [Build.assigned String.eqb Ascii.eqb Bool.eqb];
    rewrite (proj1 (mts_defines_only cts)); by eexists
  | erewrite flagText_objectLiteral by reflexivity;
    rewrite objectLiteral_lookup; cbn [Build.assigned String.eqb Ascii.eqb Bool.eqb];
    by rewrite (mjs_defines_without cjs) by (by apply (bool_decide_unpack _))
  | erewrite flagText_objectLiteral by reflexivity;
    rewrite objectLiteral_lookup; cbn [Build.assigned String.eqb Ascii.eqb Bool.eqb];
    by rewrite (proj1 (proj2 (mts_defines_only cts)))
  | erewrite flagText_objectLiteral by reflexivity;
    rewrite objectLiteral_lookup; cbn [Build.assigned String.eqb Ascii.eqb Bool.eqb];
    by rewrite (mjs_defines_without cjs) by (by apply (bool_decide_unpack _))
  | erewrite flagText_objectLiteral by reflexivity;
    rewrite objectLiteral_lookup; cbn [Build.assigned String.eqb Ascii.eqb Bool.eqb];
    by rewrite (proj2 (proj2 (mts_defines_only cts)))
  | read_members;
    erewrite ?flagText_objectLiteral by reflexivity;
    rewrite ?objectLiteral_lookup; cbn [Build.assigned String.eqb Ascii.eqb Bool.eqb];
    by rewrite ?(mjs_defines_without cjs) by (by apply (bool_decide_unpack _))
  | erewrite flagText_objectLiteral by reflexivity;
    rewrite objectLiteral_lookup; cbn [Build.assigned String.eqb Ascii.eqb Bool.eqb];
    by rewrite (proj1 (defines_is_dev cts cjs))
  | erewrite flagText_objectLiteral by reflexivity;
    rewrite objectLiteral_lookup; cbn [Build.assigned String.eqb Ascii.eqb Bool.eqb];
    by rewrite (proj2 (defines_is_dev cts cjs))
  | let Hc := fresh "Hc" in
    intros Hc; split;
    [ let k := fresh "k" in
      let Hk := fresh "Hk" in
      intros k Hk;
      erewrite !flagText_objectLiteral by reflexivity;
      rewrite !objectLiteral_lookup; cbn [Build.assigned];
      repeat match goal with
             | |- context [String.eqb ?a k] =>
                 destruct (String.eqb_spec a k) as [<-|?]; cbv beta iota
             end;
      rewrite ?(proj2 (proj2 (mts_defines_only cts)));
      try done;
      intros ?%fmap_is_Some; by apply defines_agree
    | erewrite !flagText_objectLiteral by reflexivity;
      rewrite !objectLiteral_lookup;
      cbn [Build.assigned String.eqb Ascii.eqb Bool.eqb];
      rewrite (proj1 (defines_is_dev cts cjs)), (proj2 (defines_is_dev cts cjs));
      destruct Hc as (_ & -> & _);
      cbn [fmap option_fmap option_map JS.toString];
      rewrite <- stringify_bool_inj; split; [by intros [=]|by intros ->] ] ].

(** C6, amended.  For each of the six bundles the two scripts give the
    same entry point, output file and module format, and the same values
    to [IS_DISCORD_DESKTOP] and [IS_VESKTOP].  Given the same build (the
    same [watch], [VERSION], [BUILD_TIMESTAMP] and platform, and the same
    standalone and updater settings), every flag that build.mjs defines,
    other than [IS_DEV], has the same text in build.mts; [IS_DEV] is the
    text of [IS_DEV] in build.mts and the text of [watch] in build.mjs, so
    it is the same in both exactly when [IS_DEV] equals [watch].  The sets
    of flags differ: build.mts also defines [IS_REPORTER] and
    [IS_EXTENSION] for every bundle and [IS_WEB] for the main and preload
    bundles, which build.mjs does not. *)
Theorem build_scripts_agreement (cts : Mts.Common) (cjs : Mjs.Common) :
  Forall2 (agree cts cjs) (Mts.buildOptions cts) (Mjs.buildOptions cjs).
Proof.
  unfold Mts.buildOptions, Mjs.buildOptions.
  repeat apply Forall2_cons_2; [..|apply Forall2_nil_2].
  - agree_bundle cts cjs.
  - agree_bundle cts cjs.
  - agree_bundle cts cjs.
  - agree_bundle cts cjs.
  - agree_bundle cts cjs.
  - agree_bundle cts cjs.
Qed.

Lemma build_scripts_agreement_witness :
  Build.flagText (hd ∅ (Mts.buildOptions SampleBuild.mts)) "VERSION"
  = Build.flagText (hd ∅ (Mjs.buildOptions SampleBuild.mjs)) "VERSION".
Proof.
  pose proof (build_scripts_agreement SampleBuild.mts SampleBuild.mjs) as H.
  unfold Mts.buildOptions, Mjs.buildOptions in H.
  apply Forall2_cons_1 in H as [(_ & _ & _ & _ & _ & _ & _ & _ & _ & _ & H) _].
  apply H.
  - by repeat split.
  - discriminate.
  - vm_compute. by eexists.
Defined.

(** A development build that is not watched: the same build for both
    scripts, which then differ on [IS_DEV]. *)
Example build_scripts_is_dev :
  let cts :=
    {| Mts.BUILD_TIMESTAMP := 1700000000000;
       Mts.buildOpts := Mts.buildOpts SampleBuild.mts;
       Mts.IS_DEV := true;
       Mts.IS_REPORTER := false;
       Mts.IS_STANDALONE := false;
       Mts.IS_UPDATER_DISABLED := false;
       Mts.VERSION := "1.6.5";
       Mts.watch := false;
       Mts.process_platform := "linux" |} in
  corresponds cts SampleBuild.mjs
  /\ Build.flagText (hd ∅ (Mts.buildOptions cts)) "IS_DEV" = Some "true"
  /\ Build.flagText (hd ∅ (Mjs.buildOptions SampleBuild.mjs)) "IS_DEV"
     = Some "false".
Proof. by repeat split. Qed.

(** ** The models at work *)

Example anonymise_random :
  AnonymiseFileNames.anonymise
    {| AnonymiseFileNames.method := AnonymiseFileNames.Methods.Random;
       AnonymiseFileNames.randomisedLength := 7;
       AnonymiseFileNames.consistent := "image";
       AnonymiseFileNames.random_index := fun k => (k * 7 + 3)%nat;
       AnonymiseFileNames.date_now := 1700000000123;
       AnonymiseFileNames.performance_now := 4521 |} "archive.tar.gz"
  = inr "DKRYfmt.tar.gz".
Proof. reflexivity. Qed.

Example anonymise_timestamp :
  AnonymiseFileNames.anonymise
    {| AnonymiseFileNames.method := AnonymiseFileNames.Methods.Timestamp;
       AnonymiseFileNames.randomisedLength := 7;
       AnonymiseFileNames.consistent := "image";
       AnonymiseFileNames.random_index := fun k => k;
       AnonymiseFileNames.date_now := 1700000000123;
       AnonymiseFileNames.performance_now := 4521 |} "notes.final.txt"
  = inr "17000000004521.txt".
Proof. reflexivity. Qed.

Example anonymise_range_error :
  AnonymiseFileNames.anonymise
    {| AnonymiseFileNames.method := AnonymiseFileNames.Methods.Random;
       AnonymiseFileNames.randomisedLength := 4294967296;
       AnonymiseFileNames.consistent := "image";
       AnonymiseFileNames.random_index := fun k => 0%nat;
       AnonymiseFileNames.date_now := 1700000000123;
       AnonymiseFileNames.performance_now := 4521 |} "archive.tar.gz"
  = inl JS.RangeError.
Proof. reflexivity. Qed.

Example ext_not_tar : AnonymiseFileNames.ext "x.tar.g-z" = ".g-z".
Proof. reflexivity. Qed.

Example ext_leading_tar : AnonymiseFileNames.ext ".tar.gz" = ".tar.gz".
Proof. reflexivity. Qed.

Example fetchUserProfile_uncached :
  map SampleHost.callee
    (Host.trace (Host.run SampleHost.host
       (Discord.fetchUserProfile "1" (Some {[ "guild_id" := JS.JStr "5" ]})) []))
  = [ "UserProfileStore.getUserProfile"; "FluxDispatcher.dispatch";
      "RestAPI.get"; "FluxDispatcher.dispatch"; "FluxDispatcher.dispatch";
      "FluxDispatcher.dispatch"; "UserProfileStore.getUserProfile" ].
Proof. reflexivity. Qed.

Example openUserProfile_known :
  map SampleHost.callee
    (Host.trace (Host.run SampleHost.host (Discord.openUserProfile "1") []))
  = [ "UserUtils.fetchUser"; "SelectedGuildStore.getGuildId";
      "SelectedChannelStore.getChannelId"; "openProfile" ].
Proof. reflexivity. Qed.

Example sample_manifest :
  let q := String JS.quote EmptyString in
  let nl := String JS.newline EmptyString in
  GlobNatives.contents
    (GlobNatives.onLoad SampleTree.exists_ SampleTree.readdir
       SampleTree.resolvePluginName)
  = String.concat EmptyString
      [ "import * as p0 from "; q; "./plugins/a/native"; q; ";"; nl;
        "import * as p1 from "; q; "./plugins/c/native"; q; ";"; nl;
        "export default {"; nl;
        q; "Plugin-a"; q; ":p0,"; nl;
        q; "Plugin-c"; q; ":p1,"; nl;
        "};" ].
Proof. reflexivity. Qed.

Example oneko_stop_cleans :
  Plugins.oneko_stop
    {| Plugins.timers := [3; 8]; Plugins.onekoInterval := Some 8;
       Plugins.elements := ["app-mount"; "oneko"]; Plugins.fetches := [] |}
  = (None,
     {| Plugins.timers := [3]; Plugins.onekoInterval := None;
        Plugins.elements := ["app-mount"]; Plugins.fetches := [] |}).
Proof. reflexivity. Qed.


(* ===================================================================== *)
(** * Further properties *)
(* ===================================================================== *)

(** ** The extension kept by [anonymise] *)

Section ExtFacts.

Import AnonymiseFileNames.

Lemma lastIndexOf_present' s c :
  contains s c = true -> JS.lastIndexOf s c <> -1.
Proof.
  induction s as [|c' s IH]; simpl; [done|].
  intros H. destruct (Z.eqb_spec (JS.lastIndexOf s c) (-1)) as [E|E].
  - destruct (Ascii.eqb c' c); simpl in H; [lia|]. by apply IH in H.
  - pose proof (lastIndexOf_ge s c). lia.
Qed.

Lemma lastIndexOf_split s c :
  JS.lastIndexOf s c <> -1 ->
  exists pre suf, s = pre +:+ String c suf
                  /\ JS.lastIndexOf s c = Z.of_nat (String.length pre)
                  /\ contains suf c = false.
Proof.
  induction s as [|c' s IH]; [done|]. cbn [JS.lastIndexOf]. cbv zeta.
  destruct (Z.eqb_spec (JS.lastIndexOf s c) (-1)) as [E|E].
  - destruct (Ascii.eqb_spec c' c) as [->|?]; [|done]. intros _.
    exists EmptyString, s. repeat split.
    destruct (contains s c) eqn:Hc; [|done].
    by apply lastIndexOf_present' in Hc.
  - intros _. destruct (IH E) as (pre & suf & -> & Hl & Hs).
    exists (String c' pre), suf. rewrite app_String. split; [done|].
    split; [|done]. rewrite Hl. cbn [String.length]. lia.
Qed.

Lemma tar_extension_ext file x : tar_extension file x -> ext file = x.
Proof.
  intros Hx. unfold ext, extIdx. rewrite (tar_extension_exec _ _ Hx).
  destruct Hx as (pre & w & -> & _).
  rewrite string_length_app, Nat.add_sub.
  destruct (Z.eqb_spec (Z.of_nat (String.length pre)) (-1)); [lia|].
  cbn [negb]. apply slice_app.
Qed.

Lemma last_dot_extension_ext file x :
  (forall y, ~ tar_extension file y) -> last_dot_extension file x -> ext file = x.
Proof.
  intros Hno (pre & suf & -> & -> & Hsuf). unfold ext, extIdx.
  rewrite (no_tar_extension_exec _ Hno).
  rewrite lastIndexOf_app; rewrite lastIndexOf_head by done; [|done].
  rewrite Z.add_0_r.
  destruct (Z.eqb_spec (Z.of_nat (String.length pre)) (-1)); [lia|].
  cbn [negb]. apply slice_app.
Qed.

Lemma no_dot_ext file : contains file "." = false -> ext file = EmptyString.
Proof.
  intros Hdot. unfold ext, extIdx. rewrite no_tar_extension_exec.
  - by rewrite (lastIndexOf_absent _ _ Hdot).
  - intros x (pre & w & -> & -> & _).
    rewrite contains_app in Hdot. by apply orb_false_iff in Hdot as [_ Hdot].
Qed.

(** Every file name falls under one of the three cases of [ext]. *)
Lemma ext_cases file :
  (exists x, tar_extension file x /\ ext file = x)
  \/ ((forall y, ~ tar_extension file y)
      /\ exists x, last_dot_extension file x /\ ext file = x)
  \/ (contains file "." = false /\ ext file = EmptyString).
Proof.
  destruct (RegExp.exec tarExtMatcher file) as [j|] eqn:E.
  - left. unfold RegExp.exec in E.
    apply exec_from_Some in E as (pre & suf & Hf & _ & Hm).
    apply tarExtMatcher_here in Hm as (w & Hs & Hne & Hw).
    assert (tar_extension file suf) by (by exists pre, w).
    exists suf. split; [done|]. by apply tar_extension_ext.
  - assert (Hno : forall y, ~ tar_extension file y).
    { intros y Hy. apply tar_extension_exec in Hy. congruence. }
    destruct (contains file ".") eqn:Hc.
    + right; left. split; [done|].
      apply lastIndexOf_present' in Hc.
      destruct (lastIndexOf_split _ _ Hc) as (pre & suf & Hf & _ & Hs).
      assert (last_dot_extension file (String "." suf)) by (by exists pre, suf).
      exists (String "." suf). split; [done|]. by apply last_dot_extension_ext.
    + right; right. split; [done|]. by apply no_dot_ext.
Qed.

End ExtFacts.

(** ** The generated name *)

Section NameFacts.

Import AnonymiseFileNames.

Lemma app_inv_head_s s a b : s +:+ a = s +:+ b -> a = b.
Proof. induction s as [|c s IH]; [done|]. rewrite !app_String. intros [= H]. auto. Qed.

Lemma app_split_length a b c d :
  a +:+ b = c +:+ d -> (String.length c <= String.length a)%nat ->
  exists m, a = c +:+ m /\ d = m +:+ b.
Proof.
  revert a. induction c as [|x c IH]; intros a.
  - rewrite app_empty_l. intros <- _. by exists a.
  - destruct a as [|y a]; [cbn; lia|]. rewrite !app_String.
    intros [= -> H] Hl. cbn in Hl.
    destruct (IH a H) as (m & -> & ->); [lia|]. by exists m.
Qed.

Lemma get_contains s i c : String.get i s = Some c -> contains s c = true.
Proof.
  revert i. induction s as [|c' s IH]; intros i; [done|].
  destruct i as [|i]; cbn.
  - intros [= ->]. by rewrite Ascii.eqb_refl.
  - intros H. rewrite (IH _ H). apply orb_true_r.
Qed.

Lemma get_in_range s i :
  (i < String.length s)%nat -> exists c, String.get i s = Some c.
Proof.
  revert i. induction s as [|c' s IH]; intros i; cbn; [lia|].
  destruct i as [|i]; [by eexists|]. intros H. apply IH. lia.
Qed.

Lemma word_string_contains s c :
  word_string s = true -> contains s c = true -> RegExp.is_word c = true.
Proof.
  induction s as [|c' s IH]; [done|]. cbn.
  intros [Hc Hs]%andb_true_iff [Hc'|Hc']%orb_true_iff; [|auto].
  by apply Ascii.eqb_eq in Hc' as <-.
Qed.

(** The characters that [Array.from] draws are characters of [chars]. *)
Lemma drawn_word (f : nat -> nat) l :
  word_string (JS.join (map (fun k => JS.charAt chars (f k)) l)) = true.
Proof.
  induction l as [|k l IH]; [done|]. cbn [map JS.join].
  destruct (JS.charAt chars (f k)) as [c|] eqn:E; [|done].
  cbn [word_string]. rewrite IH, andb_true_r.
  apply get_contains in E. by apply (word_string_contains chars).
Qed.

Lemma drawn_length (f : nat -> nat) l :
  (forall k, k ∈ l -> (f k < 62)%nat) ->
  String.length (JS.join (map (fun k => JS.charAt chars (f k)) l)) = length l.
Proof.
  induction l as [|k l IH]; [done|]. intros H. cbn [map JS.join].
  destruct (get_in_range chars (f k)) as [c Hc].
  { apply (H k), list_elem_of_here. }
  unfold JS.charAt at 1. rewrite Hc. cbn. f_equal. apply IH.
  intros k' Hk'. by apply H, list_elem_of_further.
Qed.

Lemma drawn_length_le (f : nat -> nat) l :
  (String.length (JS.join (map (fun k => JS.charAt chars (f k)) l)) <= length l)%nat.
Proof.
  induction l as [|k l IH]; [done|]. cbn [map JS.join].
  destruct (JS.charAt chars (f k)); cbn [JS.join String.length length]; lia.
Qed.

Lemma string_of_uint_no_dot d :
  contains (NilEmpty.string_of_uint d) "." = false.
Proof. induction d; cbn; done. Qed.

Lemma numberToString_no_dot n : contains (JS.numberToString n) "." = false.
Proof.
  unfold JS.numberToString, NilZero.string_of_int, NilZero.string_of_uint.
  destruct (Z.to_int n) as [d|d]; destruct d; cbn;
    by rewrite ?string_of_uint_no_dot.
Qed.

(** Only the Consistent method can put a ['.'] into the name. *)
Lemma name_no_dot e n :
  (method e = Methods.Consistent -> contains (consistent e) "." = false) ->
  name e = inr n -> contains n "." = false.
Proof.
  intros Hc. unfold name.
  destruct (Z.eqb_spec (method e) Methods.Random).
  { unfold JS.arrayFrom. destruct (_ <? _); [done|]. intros [= <-].
    apply word_string_no_dot, drawn_word. }
  destruct (Z.eqb_spec (method e) Methods.Consistent); [intros [= <-]; auto|].
  destruct (Z.eqb_spec (method e) Methods.Timestamp); intros [= <-]; [|done].
  by rewrite contains_app, !numberToString_no_dot.
Qed.

(** What [anonymise] returns is a name that was made, followed by the
    extension. *)
Lemma anonymise_returns e file s :
  anonymise e file = inr s <-> exists n, name e = inr n /\ s = n +:+ ext file.
Proof.
  unfold anonymise. destruct (name e) as [err|n]; split.
  - done.
  - by intros (n & [=] & _).
  - intros [= <-]. by exists n.
  - by intros (n' & [= <-] & ->).
Qed.

(** An extension is empty or starts with a ['.']. *)
Lemma ext_empty_or_dot file :
  ext file = EmptyString \/ exists rest, ext file = String "." rest.
Proof.
  destruct (ext_cases file) as [(x & Hx & ->)|[(Hno & x & Hx & ->)|[_ ->]]].
  - destruct Hx as (pre & w & _ & -> & _). right. by eexists.
  - destruct Hx as (pre & suf & _ & -> & _). right. by eexists.
  - by left.
Qed.

(** A name without ['.'] followed by an extension can be read in one way
    only. *)
Lemma name_ext_unique n1 n2 x1 x2 :
  contains n1 "." = false -> contains n2 "." = false ->
  (x1 = EmptyString \/ exists rest, x1 = String "." rest) ->
  (x2 = EmptyString \/ exists rest, x2 = String "." rest) ->
  n1 +:+ x1 = n2 +:+ x2 -> n1 = n2 /\ x1 = x2.
Proof.
  revert n2. induction n1 as [|c n1 IH]; intros n2 H1 H2 Hx1 Hx2.
  - rewrite app_empty_l. destruct n2 as [|c n2]; [by rewrite app_empty_l|].
    rewrite app_String. intros ->. destruct Hx1 as [[=]|[rest [= -> _]]].
    cbn in H2. done.
  - destruct n2 as [|c' n2].
    + rewrite app_empty_l, app_String. intros <-.
      destruct Hx2 as [[=]|[rest [= -> _]]]. cbn in H1. done.
    + rewrite !app_String. intros [= -> H].
      cbn in H1, H2. apply orb_false_iff in H1 as [_ H1].
      apply orb_false_iff in H2 as [_ H2].
      destruct (IH n2 H1 H2 Hx1 Hx2 H) as [-> ->]. done.
Qed.

(** Putting a name without ['.'] in front of an extension gives a file
    name with that same extension. *)
Lemma ext_renamed n file :
  contains n "." = false -> ext (n +:+ ext file) = ext file.
Proof.
  intros Hn. destruct (ext_cases file) as [(x & Hx & ->)|[(Hno & x & Hx & ->)|[_ ->]]].
  - apply tar_extension_ext. destruct Hx as (pre & w & _ & ? & ? & ?).
    by exists n, w.
  - apply last_dot_extension_ext.
    + intros y Hy. pose proof (tar_extension_lastIndexOf _ _ Hy) as Hl.
      destruct Hx as (_ & suf & _ & -> & Hsuf).
      destruct Hy as (pre' & w' & Hf & -> & _ & _).
      assert (Hd : JS.lastIndexOf (String "." suf) "." = 0)
        by (by apply lastIndexOf_head).
      rewrite lastIndexOf_app, Hd in Hl by lia.
      rewrite Hf, string_length_app, Nat.add_sub in Hl.
      destruct (app_split_length _ _ _ _ Hf) as (m & Hm & Hy); [lia|].
      rewrite Hm, contains_app in Hn. apply orb_false_iff in Hn as [_ Hn].
      assert (String.length n = String.length pre' + String.length m)%nat
        by (by rewrite Hm, string_length_app).
      destruct m as [|c m]; [cbn in *; lia|].
      rewrite app_String in Hy. injection Hy as <- _. by cbn in Hn.
    + destruct Hx as (_ & suf & _ & -> & Hsuf). by exists n, suf.
  - rewrite app_empty_r. by apply no_dot_ext.
Qed.

End NameFacts.

(** X1.  The extension that [anonymise] keeps is a suffix of the file
    name; it is empty exactly when the name has no ['.'], and starts with
    a ['.'] otherwise. *)
Theorem ext_is_suffix (file : string) :
  (exists base, file = base +:+ AnonymiseFileNames.ext file)
  /\ (AnonymiseFileNames.ext file = EmptyString <-> contains file "." = false)
  /\ (contains file "." = true ->
      exists rest, AnonymiseFileNames.ext file = String "." rest).
Proof.
  destruct (ext_cases file) as [(x & Hx & ->)|[(Hno & x & Hx & ->)|[Hdot ->]]].
  - destruct Hx as (pre & w & -> & -> & _ & _). split; [by exists pre|].
    rewrite contains_app. cbn. rewrite orb_true_r. split; [done|].
    intros _. by eexists.
  - destruct Hx as (pre & suf & -> & -> & _). split; [by exists pre|].
    rewrite contains_app. cbn. rewrite orb_true_r. split; [done|].
    intros _. by eexists.
  - split; [exists file; by rewrite app_empty_r|]. rewrite Hdot. by split.
Qed.

Lemma ext_is_suffix_witness :
  exists rest, AnonymiseFileNames.ext "photo.final.jpeg" = String "." rest.
Proof. by apply (proj2 (proj2 (ext_is_suffix "photo.final.jpeg"))). Defined.

(** X2.  Unless the Consistent method is configured with a file name
    that itself contains a ['.'], an anonymised name has the extension
    that [anonymise] read from the original, and anonymising it again
    with the same settings and draws returns it unchanged. *)
Theorem anonymise_idempotent (e : AnonymiseFileNames.Env) (file : string) :
  (AnonymiseFileNames.method e = AnonymiseFileNames.Methods.Consistent ->
   contains (AnonymiseFileNames.consistent e) "." = false) ->
  forall anonymised,
    AnonymiseFileNames.anonymise e file = inr anonymised ->
    AnonymiseFileNames.ext anonymised = AnonymiseFileNames.ext file
    /\ AnonymiseFileNames.anonymise e anonymised = inr anonymised.
Proof.
  intros Hc s (n & Hn & ->)%anonymise_returns.
  pose proof (name_no_dot e n Hc Hn) as Hd.
  split; [by apply ext_renamed|].
  apply anonymise_returns. exists n. by rewrite ext_renamed.
Qed.

Lemma anonymise_idempotent_witness :
  let e := {| AnonymiseFileNames.method := AnonymiseFileNames.Methods.Consistent;
              AnonymiseFileNames.randomisedLength := 7;
              AnonymiseFileNames.consistent := "image";
              AnonymiseFileNames.random_index := fun k => k;
              AnonymiseFileNames.date_now := 1700000000123;
              AnonymiseFileNames.performance_now := 4521 |} in
  AnonymiseFileNames.ext "image.tar.gz" = AnonymiseFileNames.ext "backup.tar.gz"
  /\ AnonymiseFileNames.anonymise e "image.tar.gz" = inr "image.tar.gz".
Proof.
  intros e.
  by apply (anonymise_idempotent e "backup.tar.gz" ltac:(done) "image.tar.gz").
Defined.

(** A Consistent name with a ['.'] can change the extension: a name
    ending in [.tar] turns [.gz] into [.tar.gz]. *)
Example anonymise_consistent_tar :
  let e := {| AnonymiseFileNames.method := AnonymiseFileNames.Methods.Consistent;
              AnonymiseFileNames.randomisedLength := 7;
              AnonymiseFileNames.consistent := "dump.tar";
              AnonymiseFileNames.random_index := fun k => k;
              AnonymiseFileNames.date_now := 0;
              AnonymiseFileNames.performance_now := 0 |} in
  AnonymiseFileNames.ext "b.gz" = ".gz"
  /\ AnonymiseFileNames.anonymise e "b.gz" = inr "dump.tar.gz"
  /\ AnonymiseFileNames.ext "dump.tar.gz" = ".tar.gz".
Proof. by repeat split. Qed.

(** X3.  With the Random method and a configured length below [2^32]
    the name consists of letters and digits of [chars] only and is never
    longer than the configured length; it has exactly that length (none
    for a negative one) when every draw is an index into [chars], as
    [Math.floor(Math.random() * chars.length)] is.  With a length of
    [2^32] or more no name is made: [Array.from] throws a [RangeError]. *)
Theorem random_name (e : AnonymiseFileNames.Env) :
  AnonymiseFileNames.method e = AnonymiseFileNames.Methods.Random ->
  (2 ^ 32 <= AnonymiseFileNames.randomisedLength e ->
   AnonymiseFileNames.name e = inl JS.RangeError)
  /\ (AnonymiseFileNames.randomisedLength e < 2 ^ 32 ->
      exists name,
        AnonymiseFileNames.name e = inr name
        /\ word_string name = true
        /\ contains name "_" = false
        /\ (String.length name
            <= Z.to_nat (AnonymiseFileNames.randomisedLength e))%nat
        /\ ((forall k, (AnonymiseFileNames.random_index e k < 62)%nat) ->
            String.length name
            = Z.to_nat (AnonymiseFileNames.randomisedLength e))).
Proof.
  intros Hm. split; [by apply name_throws|]. intros Hl.
  unfold AnonymiseFileNames.name. rewrite Hm, Z.eqb_refl.
  rewrite arrayFrom_returns by done. eexists. split; [reflexivity|].
  split; [apply drawn_word|]. split; [|split].
  - generalize (seq 0 (Z.to_nat (AnonymiseFileNames.randomisedLength e))).
    intros l. induction l as [|k l IH]; [done|]. cbn [map JS.join].
    destruct (JS.charAt AnonymiseFileNames.chars _) as [c|] eqn:E; [|done].
    cbn [contains]. rewrite IH, orb_false_r. apply get_contains in E.
    destruct (Ascii.eqb_spec c "_") as [->|]; [|done]. by vm_compute in E.
  - etransitivity; [apply drawn_length_le|]. by rewrite length_seq.
  - intros Hr. rewrite drawn_length; [by rewrite length_seq|]. auto.
Qed.

Lemma random_name_witness :
  let e := {| AnonymiseFileNames.method := AnonymiseFileNames.Methods.Random;
              AnonymiseFileNames.randomisedLength := 7;
              AnonymiseFileNames.consistent := "image";
              AnonymiseFileNames.random_index := fun k => ((k * 7 + 3) mod 62)%nat;
              AnonymiseFileNames.date_now := 0;
              AnonymiseFileNames.performance_now := 0 |} in
  exists name,
    AnonymiseFileNames.name e = inr name /\ String.length name = 7%nat.
Proof.
  intros e.
  destruct (proj2 (random_name e eq_refl) eq_refl)
    as (name & Hn & _ & _ & _ & Hl).
  exists name. split; [exact Hn|]. apply Hl.
  intros k. apply Nat.mod_upper_bound. lia.
Defined.

(** X4.  A setting that the settings page shows as disabled is one that
    [anonymise] does not read: changing it changes no anonymised name.
    The method itself is never disabled, and at most one of the two other
    settings is enabled. *)
Theorem disabled_setting_unread (e : AnonymiseFileNames.Env) (file : string) :
  (forall n,
     AnonymiseSettings.isDisabled Plugins.AnonymiseFileNames "randomisedLength"
       (AnonymiseFileNames.method e) = true ->
     AnonymiseFileNames.anonymise (AnonymiseSettings.setRandomisedLength e n) file
     = AnonymiseFileNames.anonymise e file)
  /\ (forall s,
        AnonymiseSettings.isDisabled Plugins.AnonymiseFileNames "consistent"
          (AnonymiseFileNames.method e) = true ->
        AnonymiseFileNames.anonymise (AnonymiseSettings.setConsistent e s) file
        = AnonymiseFileNames.anonymise e file)
  /\ AnonymiseSettings.isDisabled Plugins.AnonymiseFileNames "method"
       (AnonymiseFileNames.method e) = false
  /\ (AnonymiseSettings.isDisabled Plugins.AnonymiseFileNames "randomisedLength"
        (AnonymiseFileNames.method e) = true
      \/ AnonymiseSettings.isDisabled Plugins.AnonymiseFileNames "consistent"
           (AnonymiseFileNames.method e) = true).
Proof.
  assert (Hr : forall m, AnonymiseSettings.isDisabled Plugins.AnonymiseFileNames
                 "randomisedLength" m
               = negb (m =? AnonymiseFileNames.Methods.Random)) by done.
  assert (Hc : forall m, AnonymiseSettings.isDisabled Plugins.AnonymiseFileNames
                 "consistent" m
               = negb (m =? AnonymiseFileNames.Methods.Consistent)) by done.
  rewrite Hr, Hc. unfold AnonymiseFileNames.anonymise, AnonymiseFileNames.name.
  cbn [AnonymiseSettings.setRandomisedLength AnonymiseSettings.setConsistent
       AnonymiseFileNames.method AnonymiseFileNames.randomisedLength
       AnonymiseFileNames.consistent AnonymiseFileNames.random_index
       AnonymiseFileNames.date_now AnonymiseFileNames.performance_now].
  split; [|split; [|split]].
  - intros n Hd. destruct (_ =? AnonymiseFileNames.Methods.Random); done.
  - intros s Hd.
    destruct (_ =? AnonymiseFileNames.Methods.Random); [done|].
    destruct (_ =? AnonymiseFileNames.Methods.Consistent); done.
  - done.
  - destruct (Z.eqb_spec (AnonymiseFileNames.method e) AnonymiseFileNames.Methods.Random) as [->|];
      [by right|by left].
Qed.

Lemma disabled_setting_unread_witness :
  let e := {| AnonymiseFileNames.method := AnonymiseFileNames.Methods.Timestamp;
              AnonymiseFileNames.randomisedLength := 7;
              AnonymiseFileNames.consistent := "image";
              AnonymiseFileNames.random_index := fun k => k;
              AnonymiseFileNames.date_now := 1700000000123;
              AnonymiseFileNames.performance_now := 4521 |} in
  AnonymiseFileNames.anonymise (AnonymiseSettings.setRandomisedLength e 12) "a.png"
  = AnonymiseFileNames.anonymise e "a.png".
Proof. intros e. by apply (proj1 (disabled_setting_unread e "a.png") 12). Defined.

(** X5.  Two uploads, each anonymised with its own settings, draws and
    clock, get the same anonymised name exactly when the names made for
    them are the same and their extensions are equal, provided no
    Consistent name contains a ['.']: an anonymised name can be read in
    one way only.  With the Consistent method and one configured name,
    two uploads collide exactly when their extensions are equal. *)
Theorem anonymise_collision (e1 e2 : AnonymiseFileNames.Env)
    (file1 file2 anonymised1 anonymised2 : string) :
  (AnonymiseFileNames.method e1 = AnonymiseFileNames.Methods.Consistent ->
   contains (AnonymiseFileNames.consistent e1) "." = false) ->
  (AnonymiseFileNames.method e2 = AnonymiseFileNames.Methods.Consistent ->
   contains (AnonymiseFileNames.consistent e2) "." = false) ->
  AnonymiseFileNames.anonymise e1 file1 = inr anonymised1 ->
  AnonymiseFileNames.anonymise e2 file2 = inr anonymised2 ->
  (anonymised1 = anonymised2
   <-> AnonymiseFileNames.name e1 = AnonymiseFileNames.name e2
       /\ AnonymiseFileNames.ext file1 = AnonymiseFileNames.ext file2)
  /\ (AnonymiseFileNames.method e1 = AnonymiseFileNames.Methods.Consistent ->
      AnonymiseFileNames.method e2 = AnonymiseFileNames.Methods.Consistent ->
      AnonymiseFileNames.consistent e1 = AnonymiseFileNames.consistent e2 ->
      (anonymised1 = anonymised2
       <-> AnonymiseFileNames.ext file1 = AnonymiseFileNames.ext file2)).
Proof.
  intros Hc1 Hc2 (n1 & Hn1 & ->)%anonymise_returns
    (n2 & Hn2 & ->)%anonymise_returns.
  pose proof (name_no_dot e1 n1 Hc1 Hn1) as Hd1.
  pose proof (name_no_dot e2 n2 Hc2 Hn2) as Hd2.
  assert (Hiff : n1 +:+ AnonymiseFileNames.ext file1
                 = n2 +:+ AnonymiseFileNames.ext file2
                 <-> n1 = n2
                     /\ AnonymiseFileNames.ext file1 = AnonymiseFileNames.ext file2).
  { split; [|by intros [-> ->]].
    apply name_ext_unique; auto using ext_empty_or_dot. }
  split.
  - rewrite Hiff, Hn1, Hn2. split; [by intros [-> ?]|by intros [[= ->] ?]].
  - intros Hm1 Hm2 Hs. rewrite Hiff.
    assert (n1 = n2) as ->; [|by split; [intros [_ ?]|]].
    unfold AnonymiseFileNames.name in Hn1, Hn2. rewrite Hm1 in Hn1.
    rewrite Hm2 in Hn2. cbn in Hn1, Hn2. congruence.
Qed.

Lemma anonymise_collision_witness :
  let e1 := {| AnonymiseFileNames.method := AnonymiseFileNames.Methods.Timestamp;
               AnonymiseFileNames.randomisedLength := 7;
               AnonymiseFileNames.consistent := "image";
               AnonymiseFileNames.random_index := fun k => k;
               AnonymiseFileNames.date_now := 1000;
               AnonymiseFileNames.performance_now := 5 |} in
  let e2 := {| AnonymiseFileNames.method := AnonymiseFileNames.Methods.Timestamp;
               AnonymiseFileNames.randomisedLength := 7;
               AnonymiseFileNames.consistent := "image";
               AnonymiseFileNames.random_index := fun k => k;
               AnonymiseFileNames.date_now := 1500;
               AnonymiseFileNames.performance_now := 5 |} in
  AnonymiseFileNames.name e1 = AnonymiseFileNames.name e2
  /\ AnonymiseFileNames.ext "a.png" = AnonymiseFileNames.ext "b.png".
Proof.
  intros e1 e2.
  by apply (proj1 (proj1 (anonymise_collision e1 e2 "a.png" "b.png"
                            "15.png" "15.png" ltac:(done) ltac:(done)
                            eq_refl eq_refl))).
Defined.

(** ** [fetchUserProfile] without a cached profile *)

(** Follows the answers that the hypotheses give for the host. *)
Ltac follow_replies :=
  repeat match goal with
         | H : replies _ _ (_ :: _) _ |- _ =>
             let w := fresh "w" in
             let E := fresh "E" in
             destruct H as (w & E & H)
         | H : replies _ _ [] _ |- _ => cbn in H; subst
         end;
  cbn;
  repeat match goal with
         | E : Host.respond ?h ?c ?w = _ |- context [Host.respond ?h ?c ?w] =>
             rewrite E; cbn
         | E : JS.truthy ?v = _ |- context [JS.truthy ?v] => rewrite E; cbn
         | E : JS.getProp ?v ?k = _ |- context [JS.getProp ?v ?k] =>
             rewrite E; cbn
         end.

(** X6.  Whatever the host does, every REST request that
    [fetchUserProfile] sends is for [/users/<id>/profile] with
    [oldFormErrors] set, and its query holds what [options] give, with
    [with_mutual_guilds] and [with_mutual_friends_count] false unless
    [options] say otherwise. *)
Theorem fetchUserProfile_request (h : Host.Host) (w : Host.world h)
    (id : string) (options : option (gmap string JS.JSVal)) :
  Forall (fun c =>
            forall request, c = Host.RestAPI_get request ->
              request !! "url" = Some (JS.JStr ("/users/" +:+ id +:+ "/profile"))
              /\ request !! "oldFormErrors" = Some (JS.JBool true)
              /\ exists query,
                   request !! "query" = Some (JS.JObj query)
                   /\ forall k,
                        query !! k
                        = match (match options with
                                 | Some o => o !! k
                                 | None => None
                                 end) with
                          | Some v => Some v
                          | None =>
                              if bool_decide (k ∈ ["with_mutual_guilds";
                                                   "with_mutual_friends_count"])
                              then Some (JS.JBool false) else None
                          end)
         (Host.trace (Host.run h (Discord.fetchUserProfile id options) w)).
Proof.
  assert (Hq : forall request, Host.RestAPI_get (profileRequest id options)
                               = Host.RestAPI_get request ->
      request !! "url" = Some (JS.JStr ("/users/" +:+ id +:+ "/profile"))
      /\ request !! "oldFormErrors" = Some (JS.JBool true)
      /\ exists query,
           request !! "query" = Some (JS.JObj query)
           /\ forall k,
                query !! k
                = match (match options with Some o => o !! k | None => None end) with
                  | Some v => Some v
                  | None =>
                      if bool_decide (k ∈ ["with_mutual_guilds";
                                           "with_mutual_friends_count"])
                      then Some (JS.JBool false) else None
                  end).
  { intros request [= <-]. split; [done|]. split; [done|].
    eexists. split; [reflexivity|]. intros k. unfold JS.spreadOpt.
    assert (Hd : forall k : string,
      ({[ "with_mutual_guilds" := JS.JBool false;
          "with_mutual_friends_count" := JS.JBool false ]}
         : gmap string JS.JSVal) !! k
      = if bool_decide (k ∈ ["with_mutual_guilds"; "with_mutual_friends_count"])
        then Some (JS.JBool false) else None).
    { intros k'. rewrite lookup_insert. case_decide as E1; [by subst|].
      rewrite lookup_singleton. case_decide as E2; [by subst|].
      rewrite bool_decide_eq_false_2; [done|].
      rewrite !elem_of_cons, elem_of_nil. by intros [->|[->|[]]]. }
    destruct options as [o|]; [|apply Hd].
    rewrite lookup_union. rewrite Hd. by destruct (o !! k), (bool_decide _). }
  unfold Discord.fetchUserProfile. fold (profileRequest id options). cbn.
  helper_cases; repeat apply Forall_cons_2; try apply Forall_nil_2;
    first [exact Hq | by intros ? [=]].
Qed.

(** X7.  When the profile is not cached and the REST request fails, or
    comes back with nothing whose [body.user] can be read, the helper
    throws (the rejection itself, or a [TypeError]) after having dispatched
    [USER_PROFILE_FETCH_START] only: no further event is dispatched and the
    store is not read again. *)
Theorem fetchUserProfile_failure (h : Host.Host) (w w_end : Host.world h)
    (id : string) (options : option (gmap string JS.JSVal))
    (cached started : JS.JSVal) (answer : Host.Outcome) :
  JS.truthy cached = false ->
  replies h w
    [ (Host.UserProfileStore_getUserProfile id, Host.Returned cached);
      (Host.FluxDispatcher_dispatch (fetchStart id), Host.Returned started);
      (Host.RestAPI_get (profileRequest id options), answer) ] w_end ->
  forall err,
    match answer with
    | Host.Thrown e => err = JS.HostError e
    | Host.Returned response =>
        err = JS.TypeError
        /\ (nullish response = true
            \/ exists body, JS.getProp response "body" = inr body
                            /\ nullish body = true)
    end ->
    Host.run h (Discord.fetchUserProfile id options) w
    = {| Host.result := inl err;
         Host.final := w_end;
         Host.trace :=
           [ Host.UserProfileStore_getUserProfile id;
             Host.FluxDispatcher_dispatch (fetchStart id);
             Host.RestAPI_get (profileRequest id options) ] |}.
Proof.
  intros Hc Hr err Ha. unfold Discord.fetchUserProfile.
  fold (profileRequest id options) (fetchStart id).
  follow_replies. destruct answer as [response|e]; cbn.
  - destruct Ha as [-> [Hn|(body & Hb & Hn)]].
    + by destruct response.
    + rewrite Hb. cbn. by destruct body.
  - by subst.
Qed.

Lemma fetchUserProfile_failure_witness :
  let h := {| Host.world := nat;
              Host.respond := fun c n =>
                (match c with
                 | Host.RestAPI_get _ => Host.Thrown (JS.JStr "404")
                 | _ => Host.Returned JS.JUndefined
                 end, S n) |} in
  Host.run h (Discord.fetchUserProfile "7" None) 0%nat
  = {| Host.result := inl (JS.HostError (JS.JStr "404"));
       Host.final := 3%nat;
       Host.trace :=
         [ Host.UserProfileStore_getUserProfile "7";
           Host.FluxDispatcher_dispatch (fetchStart "7");
           Host.RestAPI_get (profileRequest "7" None) ] |}.
Proof.
  intros h.
  apply (fetchUserProfile_failure h 0%nat 3%nat "7" None JS.JUndefined
           JS.JUndefined (Host.Thrown (JS.JStr "404"))).
  - reflexivity.
  - cbn. eexists; split; [reflexivity|]. eexists; split; [reflexivity|].
    eexists; split; reflexivity.
  - reflexivity.
Defined.

(** X8.  When the profile is not cached and every host call returns, the
    helper dispatches [USER_PROFILE_FETCH_START], sends the request,
    dispatches [USER_UPDATE] with [body.user] and then the success event
    built from the body, dispatches [GUILD_MEMBER_PROFILE_UPDATE] exactly
    when [options.guild_id] and [body.guild_member] are both truthy, and
    returns what the store holds after that, not the body. *)
Theorem fetchUserProfile_success (h : Host.Host) (w w_end : Host.world h)
    (id : string) (options : option (gmap string JS.JSVal))
    (cached started response body user guild_member updated succeeded
       member_updated profile : JS.JSVal) :
  JS.truthy cached = false ->
  JS.getProp response "body" = inr body ->
  JS.getProp body "user" = inr user ->
  JS.getProp body "guild_member" = inr guild_member ->
  let script :=
    [ (Host.UserProfileStore_getUserProfile id, Host.Returned cached);
      (Host.FluxDispatcher_dispatch (fetchStart id), Host.Returned started);
      (Host.RestAPI_get (profileRequest id options), Host.Returned response);
      (Host.FluxDispatcher_dispatch (userUpdate user), Host.Returned updated);
      (Host.FluxDispatcher_dispatch (fetchSuccess body), Host.Returned succeeded) ]
    ++ (if JS.truthy (JS.getPropOpt options "guild_id") && JS.truthy guild_member
        then [ (Host.FluxDispatcher_dispatch
                  (guildMemberUpdate (JS.getPropOpt options "guild_id")
                     guild_member),
                Host.Returned member_updated) ]
        else [])
    ++ [ (Host.UserProfileStore_getUserProfile id, Host.Returned profile) ] in
  replies h w script w_end ->
  Host.run h (Discord.fetchUserProfile id options) w
  = {| Host.result := inr profile;
       Host.final := w_end;
       Host.trace := map fst script |}.
Proof.
  intros Hc Hb Hu Hg script Hr. subst script. unfold Discord.fetchUserProfile.
  unfold profileRequest, fetchStart, userUpdate, fetchSuccess,
    guildMemberUpdate in *.
  destruct (JS.truthy (JS.getPropOpt options "guild_id")) eqn:Eg;
    destruct (JS.truthy guild_member) eqn:Em;
    cbn [andb app] in Hr; follow_replies; done.
Qed.

Lemma fetchUserProfile_success_witness :
  map SampleHost.callee
    (Host.trace (Host.run SampleHost.host
       (Discord.fetchUserProfile "1" (Some {[ "guild_id" := JS.JStr "5" ]})) []))
  = [ "UserProfileStore.getUserProfile"; "FluxDispatcher.dispatch";
      "RestAPI.get"; "FluxDispatcher.dispatch"; "FluxDispatcher.dispatch";
      "FluxDispatcher.dispatch"; "UserProfileStore.getUserProfile" ].
Proof.
  set (options := Some ({[ "guild_id" := JS.JStr "5" ]} : gmap string JS.JSVal)).
  set (user := JS.JObj {[ "id" := JS.JStr "1" ]}).
  set (body := JS.JObj {[ "user" := user; "guild_member" := JS.JObj ∅ ]}).
  set (response := JS.JObj {[ "body" := body ]}).
  set (c1 := Host.UserProfileStore_getUserProfile "1").
  set (c2 := Host.FluxDispatcher_dispatch (fetchStart "1")).
  set (c3 := Host.RestAPI_get (profileRequest "1" options)).
  set (c4 := Host.FluxDispatcher_dispatch (userUpdate user)).
  set (c5 := Host.FluxDispatcher_dispatch (fetchSuccess body)).
  set (c6 := Host.FluxDispatcher_dispatch
               (guildMemberUpdate (JS.JStr "5") (JS.JObj ∅))).
  rewrite (fetchUserProfile_success SampleHost.host [] [c1; c2; c3; c4; c5; c6; c1]
             "1" options JS.JUndefined JS.JUndefined response body user
             (JS.JObj ∅) JS.JUndefined JS.JUndefined JS.JUndefined
             (JS.JObj {[ "userId" := JS.JStr "1" ]})); try reflexivity.
  cbn. repeat (eexists; split; [reflexivity|]). reflexivity.
Defined.

(** X9.  The event that [fetchUserProfile] dispatches after
    [USER_UPDATE], the fifth call it makes, carries every property of the
    response body; its [type] is [USER_PROFILE_FETCH_SUCCESS] unless the
    body has a [type] of its own, which then replaces it, because the
    body is spread after the type. *)
Theorem fetchSuccess_type (h : Host.Host) (w w4 : Host.world h)
    (id : string) (options : option (gmap string JS.JSVal))
    (cached started response body user updated : JS.JSVal) :
  JS.truthy cached = false ->
  JS.getProp response "body" = inr body ->
  JS.getProp body "user" = inr user ->
  replies h w
    [ (Host.UserProfileStore_getUserProfile id, Host.Returned cached);
      (Host.FluxDispatcher_dispatch (fetchStart id), Host.Returned started);
      (Host.RestAPI_get (profileRequest id options), Host.Returned response);
      (Host.FluxDispatcher_dispatch (userUpdate user), Host.Returned updated) ]
    w4 ->
  exists event,
    Host.trace (Host.run h (Discord.fetchUserProfile id options) w) !! 4%nat
    = Some (Host.FluxDispatcher_dispatch event)
    /\ (forall k v, JS.ownProps body !! k = Some v -> event !! k = Some v)
    /\ event !! "type"
       = match JS.ownProps body !! "type" with
         | Some t => Some t
         | None => Some (JS.JStr "USER_PROFILE_FETCH_SUCCESS")
         end
    /\ (forall k, k <> "type" -> event !! k = JS.ownProps body !! k).
Proof.
  intros Hc Hb Hu Hr.
  exists (JS.spread {[ "type" := JS.JStr "USER_PROFILE_FETCH_SUCCESS" ]} body).
  split.
  - unfold Discord.fetchUserProfile.
    unfold profileRequest, fetchStart, userUpdate in *.
    follow_replies.
    by host_answer.
  - unfold JS.spread. split; [|split].
    + intros k v Hk. by apply lookup_union_Some_l.
    + rewrite lookup_union, lookup_singleton_eq.
      by destruct (JS.ownProps body !! "type").
    + intros k Hk. rewrite lookup_union, lookup_singleton_ne by done.
      by destruct (JS.ownProps body !! k).
Qed.

Lemma fetchSuccess_type_witness :
  exists event,
    Host.trace (Host.run SampleHost.host
                  (Discord.fetchUserProfile "1" None) []) !! 4%nat
    = Some (Host.FluxDispatcher_dispatch event)
    /\ event !! "type" = Some (JS.JStr "USER_PROFILE_FETCH_SUCCESS").
Proof.
  set (user := JS.JObj {[ "id" := JS.JStr "1" ]}).
  set (body := JS.JObj {[ "user" := user; "guild_member" := JS.JObj ∅ ]}).
  set (response := JS.JObj {[ "body" := body ]}).
  set (c1 := Host.UserProfileStore_getUserProfile "1").
  set (c2 := Host.FluxDispatcher_dispatch (fetchStart "1")).
  set (c3 := Host.RestAPI_get (profileRequest "1" None)).
  set (c4 := Host.FluxDispatcher_dispatch (userUpdate user)).
  destruct (fetchSuccess_type SampleHost.host [] [c1; c2; c3; c4] "1" None
              JS.JUndefined JS.JUndefined response body user JS.JUndefined
              eq_refl eq_refl eq_refl)
    as (event & Ht & _ & Hty & _).
  { cbn. repeat (eexists; split; [reflexivity|]). reflexivity. }
  exists event. split; [exact Ht|]. rewrite Hty. reflexivity.
Defined.

(** ** The build configurations *)

(** Reads any member off a configuration written as an object literal. *)
Ltac read_all :=
  unfold Build.bundleOf, Build.roleOf, Build.distributionOf, Build.flagText;
  unfold BuildReaders.footer, BuildReaders.sourcemap, BuildReaders.platform,
    BuildReaders.globalName, BuildReaders.target, BuildReaders.external,
    Build.plugins, Build.define, Build.format, Build.outfile,
    Build.entryPoints, Mts.desktopDefine, Mts.nodeBuildOpts, Mjs.nodeCommonOpts;
  repeat (rewrite objectLiteral_lookup;
          cbn [Build.assigned String.eqb Ascii.eqb Bool.eqb]).

(** Reads the member [k], a key that is not known, off an object
    literal, and splits on which key of the literal it is. *)
Ltac read_key k :=
  unfold Mts.desktopDefine, Mts.nodeBuildOpts, Mjs.nodeCommonOpts;
  repeat erewrite define_objectLiteral by reflexivity;
  repeat (rewrite objectLiteral_lookup; cbn [Build.assigned]);
  repeat match goal with
         | |- context [String.eqb ?a k] =>
             destruct (String.eqb_spec a k) as [<-|?]; cbv beta iota
         end.

(** Splits a statement about the six configurations of a script. *)
Ltac each_bundle :=
  unfold Mts.buildOptions, Mjs.buildOptions, BuildReaders.bundleNames;
  repeat first [apply Forall_cons_2 | apply Forall2_cons_2];
  first [apply Forall_nil_2 | apply Forall2_nil_2 | idtac].

Lemma mts_defines_platform cts :
  Mts.defines cts !! "process.platform"
  = if Mts.IS_STANDALONE cts then None
    else Some (JS.JStr (JS.JSON_stringify_string (Mts.process_platform cts))).
Proof.
  unfold Mts.defines. rewrite objectLiteral_lookup.
  cbn [Build.assigned String.eqb Ascii.eqb Bool.eqb default]. unfold id.
  destruct (Mts.IS_STANDALONE cts);
    cbn [JS.JSON_stringify_bool JS.strictEqStr String.eqb Ascii.eqb Bool.eqb].
  - by rewrite objectLiteral_lookup.
  - by rewrite lookup_insert_eq.
Qed.

Lemma mjs_defines_platform cjs :
  Mjs.defines cjs !! "process.platform"
  = if JS.strictEqStr (Mjs.isStandalone cjs) "false"
    then Some (JS.JStr (JS.JSON_stringify_string (Mjs.process_platform cjs)))
    else None.
Proof.
  unfold Mjs.defines. rewrite objectLiteral_lookup.
  cbn [Build.assigned String.eqb Ascii.eqb Bool.eqb default]. unfold id.
  destruct (JS.strictEqStr (Mjs.isStandalone cjs) "false").
  - by rewrite lookup_insert_eq.
  - by rewrite objectLiteral_lookup.
Qed.

Lemma mts_spread_lookup b k :
  k <> "external" -> k <> "plugins" ->
  Mts.spreadBuildOpts b !! k = Mts.others b !! k.
Proof.
  intros He Hp. unfold Mts.spreadBuildOpts.
  destruct (Mts.plugins b), (Mts.external b);
    by rewrite ?lookup_insert_ne by done.
Qed.

Lemma mts_spread_plugins b :
  Mts.others b !! "plugins" = None ->
  Build.plugins (Mts.spreadBuildOpts b) = default [] (Mts.plugins b).
Proof.
  intros Hno. unfold Build.plugins, Mts.spreadBuildOpts.
  destruct (Mts.plugins b); [by rewrite lookup_insert_eq|].
  destruct (Mts.external b); by rewrite ?lookup_insert_ne, Hno by done.
Qed.

Lemma mts_spread_external b :
  Mts.others b !! "external" = None ->
  BuildReaders.external (Mts.spreadBuildOpts b) = default [] (Mts.external b).
Proof.
  intros Hno. unfold BuildReaders.external, Mts.spreadBuildOpts.
  destruct (Mts.plugins b), (Mts.external b);
    by rewrite ?lookup_insert_ne, ?lookup_insert_eq, ?Hno by done.
Qed.

Lemma mjs_spread_lookup b k :
  k <> "external" -> k <> "plugins" ->
  Mjs.spreadCommonOpts b !! k = Mjs.others b !! k.
Proof.
  intros He Hp. unfold Mjs.spreadCommonOpts. by rewrite !lookup_insert_ne by done.
Qed.

Lemma mjs_spread_plugins b :
  Build.plugins (Mjs.spreadCommonOpts b) = Mjs.plugins b.
Proof. unfold Build.plugins, Mjs.spreadCommonOpts. by rewrite lookup_insert_eq. Qed.

Lemma mjs_spread_external b :
  BuildReaders.external (Mjs.spreadCommonOpts b) = Mjs.external b.
Proof.
  unfold BuildReaders.external, Mjs.spreadCommonOpts.
  by rewrite lookup_insert_ne, lookup_insert_eq by done.
Qed.

Opaque Mts.defines Mjs.defines Mts.spreadBuildOpts Mjs.spreadCommonOpts.

(** X10.  [process.platform] is fixed at build time in every bundle of a
    build that is not standalone, as the JSON text of the platform of the
    machine that builds, and in no bundle of a standalone build. *)
Theorem platform_defined_unless_standalone (cts : Mts.Common) (cjs : Mjs.Common) :
  Forall (fun o =>
            Build.define o !! "process.platform"
            = if Mts.IS_STANDALONE cts then None
              else Some (JS.JStr (JS.JSON_stringify_string
                                    (Mts.process_platform cts))))
         (Mts.buildOptions cts)
  /\ Forall (fun o =>
               Build.define o !! "process.platform"
               = if JS.strictEqStr (Mjs.isStandalone cjs) "false"
                 then Some (JS.JStr (JS.JSON_stringify_string
                                       (Mjs.process_platform cjs)))
                 else None)
            (Mjs.buildOptions cjs).
Proof.
  split; each_bundle; read_all;
    first [apply mts_defines_platform | apply mjs_defines_platform].
Qed.

(** X11.  A bundle's [define] is the shared [defines] with the
    distribution flags (and, for the renderer of build.mjs, [IS_WEB])
    put on top: every other flag has in every bundle the value that the
    shared [defines] give it. *)
Theorem shared_defines_kept (cts : Mts.Common) (cjs : Mjs.Common) (k : string) :
  k <> "IS_DISCORD_DESKTOP" -> k <> "IS_VESKTOP" ->
  Forall (fun o => Build.define o !! k = Mts.defines cts !! k)
         (Mts.buildOptions cts)
  /\ (k <> "IS_WEB" ->
      Forall (fun o => Build.define o !! k = Mjs.defines cjs !! k)
             (Mjs.buildOptions cjs)).
Proof.
  intros Hd Hv. split; [|intros Hw]; each_bundle; read_key k; done.
Qed.

Lemma shared_defines_kept_witness :
  Forall (fun o => Build.define o !! "VERSION"
                   = Mts.defines SampleBuild.mts !! "VERSION")
         (Mts.buildOptions SampleBuild.mts).
Proof.
  by apply (proj1 (shared_defines_kept SampleBuild.mts SampleBuild.mjs "VERSION"
                     ltac:(done) ltac:(done))).
Defined.

(** X12.  Each bundle is written to [dist/<name>.js]; outside watch mode
    its source map is external and the footer points at
    [vencord://<name>.js.map] for that same name, in watch mode the source
    map is inline and the footer is the [sourceURL] line alone. *)
Theorem footer_names_outfile (cts : Mts.Common) (cjs : Mjs.Common) :
  let named (watch : bool) (name : string) (o : gmap string Build.OptVal) :=
    Build.outfile o = Some ("dist/" +:+ name +:+ ".js")
    /\ BuildReaders.sourcemap o = Some (if watch then "inline" else "external")
    /\ exists sourceURL,
         BuildReaders.footer o
         = Some ("//# sourceURL=" +:+ sourceURL +:+ String JS.newline
                   (if watch then EmptyString
                    else "//# sourceMappingURL=vencord://" +:+ name +:+ ".js.map")) in
  Forall2 (named (Mts.watch cts)) BuildReaders.bundleNames (Mts.buildOptions cts)
  /\ Forall2 (named (Mjs.watch cjs)) BuildReaders.bundleNames (Mjs.buildOptions cjs).
Proof.
  intros named. subst named. cbv beta.
  split; each_bundle; read_all;
    (split; [reflexivity|]); (split; [reflexivity|]);
    match goal with
    | |- context [Build.footer _ ?sourceURL _] => exists sourceURL
    end;
    unfold Build.footer, Build.sourceMapFooter;
    first [destruct (Mts.watch cts) | destruct (Mjs.watch cjs)]; reflexivity.
Qed.

(** X13.  In build.mts the two main-process bundles get
    [globNativesPlugin] after the plugins of the shared options; in both
    scripts the renderer of a distribution gets [globPlugins] for that
    same distribution in front of the shared plugins; every other bundle
    gets the shared plugins alone. *)
Theorem plugins_per_bundle (cts : Mts.Common) (cjs : Mjs.Common) :
  Mts.others (Mts.buildOpts cts) !! "plugins" = None ->
  let shared := default [] (Mts.plugins (Mts.buildOpts cts)) in
  Forall (fun o =>
            match Build.bundleOf o with
            | Some (Build.Main, _) =>
                Build.plugins o = shared ++ [Build.GlobNativesPlugin]
            | Some (Build.Renderer, d) =>
                Build.plugins o
                = Build.GlobPlugins (BuildReaders.globKind d) :: shared
            | Some (Build.Preload, _) => Build.plugins o = shared
            | None => False
            end) (Mts.buildOptions cts)
  /\ Forall (fun o =>
               match Build.bundleOf o with
               | Some (Build.Renderer, d) =>
                   Build.plugins o
                   = Build.GlobPlugins (BuildReaders.globKind d)
                       :: Mjs.plugins (Mjs.commonOpts cjs)
               | Some (_, _) => Build.plugins o = Mjs.plugins (Mjs.commonOpts cjs)
               | None => False
               end) (Mjs.buildOptions cjs).
Proof.
  intros Hno shared. subst shared.
  pose proof (mts_spread_plugins _ Hno) as Hs.
  pose proof (mjs_spread_plugins (Mjs.commonOpts cjs)) as Hj.
  unfold Build.plugins in Hs, Hj.
  split; each_bundle; read_all; cbn; rewrite ?Hs, ?Hj; done.
Qed.

Lemma plugins_per_bundle_witness :
  Forall (fun o =>
            match Build.bundleOf o with
            | Some (Build.Main, _) =>
                Build.plugins o
                = [Build.CommonPlugin "git-hash-plugin"; Build.GlobNativesPlugin]
            | Some (Build.Renderer, d) =>
                Build.plugins o
                = [Build.GlobPlugins (BuildReaders.globKind d);
                   Build.CommonPlugin "git-hash-plugin"]
            | Some (Build.Preload, _) =>
                Build.plugins o = [Build.CommonPlugin "git-hash-plugin"]
            | None => False
            end) (Mts.buildOptions SampleBuild.mts).
Proof.
  by apply (proj1 (plugins_per_bundle SampleBuild.mts SampleBuild.mjs eq_refl)).
Defined.

(** X14.  The main-process and preload bundles are CommonJS modules for
    Node whose externals are [electron] (and, in build.mts, [original-fs]
    and [~pluginNatives]) followed by the shared externals; the renderer
    bundles are IIFEs that define the global [Vencord] and keep the shared
    externals as they are.  All target [esnext]. *)
Theorem bundle_kinds (cts : Mts.Common) (cjs : Mjs.Common) :
  Mts.others (Mts.buildOpts cts) !! "external" = None ->
  Forall (fun o =>
            BuildReaders.target o = ["esnext"]
            /\ match Build.roleOf o with
               | Some Build.Renderer =>
                   Build.format o = Some "iife"
                   /\ BuildReaders.globalName o = Some "Vencord"
                   /\ BuildReaders.external o
                      = default [] (Mts.external (Mts.buildOpts cts))
               | Some _ =>
                   Build.format o = Some "cjs"
                   /\ BuildReaders.platform o = Some "node"
                   /\ BuildReaders.external o
                      = ["electron"; "original-fs"; "~pluginNatives"]
                        ++ default [] (Mts.external (Mts.buildOpts cts))
               | None => False
               end) (Mts.buildOptions cts)
  /\ Forall (fun o =>
               BuildReaders.target o = ["esnext"]
               /\ match Build.roleOf o with
                  | Some Build.Renderer =>
                      Build.format o = Some "iife"
                      /\ BuildReaders.globalName o = Some "Vencord"
                      /\ BuildReaders.external o
                         = Mjs.external (Mjs.commonOpts cjs)
                  | Some _ =>
                      Build.format o = Some "cjs"
                      /\ BuildReaders.platform o = Some "node"
                      /\ BuildReaders.external o
                         = "electron" :: Mjs.external (Mjs.commonOpts cjs)
                  | None => False
                  end) (Mjs.buildOptions cjs).
Proof.
  intros Hno.
  pose proof (mts_spread_external _ Hno) as Hs.
  pose proof (mjs_spread_external (Mjs.commonOpts cjs)) as Hj.
  unfold BuildReaders.external in Hs, Hj.
  split; each_bundle; read_all; cbn; rewrite ?Hs, ?Hj; done.
Qed.

Lemma bundle_kinds_witness :
  Forall (fun o =>
            BuildReaders.target o = ["esnext"]
            /\ match Build.roleOf o with
               | Some Build.Renderer =>
                   Build.format o = Some "iife"
                   /\ BuildReaders.globalName o = Some "Vencord"
                   /\ BuildReaders.external o = ["~plugins"; "~git-hash"]
               | Some _ =>
                   Build.format o = Some "cjs"
                   /\ BuildReaders.platform o = Some "node"
                   /\ BuildReaders.external o
                      = ["electron"; "original-fs"; "~pluginNatives";
                         "~plugins"; "~git-hash"]
               | None => False
               end) (Mts.buildOptions SampleBuild.mts).
Proof.
  by apply (proj1 (bundle_kinds SampleBuild.mts SampleBuild.mjs eq_refl)).
Defined.

(** X15.  An option of the shared build options that neither script
    sets itself reaches every one of the six bundles unchanged. *)
Theorem shared_options_inherited (cts : Mts.Common) (cjs : Mjs.Common)
    (k : string) :
  k ∉ BuildReaders.scriptKeys ->
  Forall (fun o => o !! k = Mts.others (Mts.buildOpts cts) !! k)
         (Mts.buildOptions cts)
  /\ Forall (fun o => o !! k = Mjs.others (Mjs.commonOpts cjs) !! k)
            (Mjs.buildOptions cjs).
Proof.
  intros Hk.
  assert (He : k <> "external") by (intros ->; apply Hk; set_solver).
  assert (Hp : k <> "plugins") by (intros ->; apply Hk; set_solver).
  pose proof (mts_spread_lookup (Mts.buildOpts cts) k He Hp) as Hs.
  pose proof (mjs_spread_lookup (Mjs.commonOpts cjs) k He Hp) as Hj.
  split; each_bundle; read_key k;
    first [ done | exfalso; apply Hk; by apply (bool_decide_unpack _) ].
Qed.

Lemma shared_options_inherited_witness :
  Forall (fun o => o !! "logLevel" = Some (Build.OStr "info"))
         (Mts.buildOptions SampleBuild.mts).
Proof.
  apply (proj1 (shared_options_inherited SampleBuild.mts SampleBuild.mjs
                  "logLevel" ltac:(by apply (bool_decide_unpack _)))).
Defined.

(** The shared [defines] of build.mts are all made by [JSON.stringify]. *)
Lemma mts_defines_strings cts k v :
  Mts.defines cts !! k = Some v -> exists text, v = JS.JStr text.
Proof.
  Transparent Mts.defines.
  unfold Mts.defines. rewrite objectLiteral_lookup.
  cbn [Build.assigned String.eqb Ascii.eqb Bool.eqb default]. unfold id.
  destruct (Mts.IS_STANDALONE cts);
    cbn [JS.JSON_stringify_bool JS.strictEqStr String.eqb Ascii.eqb Bool.eqb];
    rewrite ?insert_objectLiteral, !objectLiteral_lookup;
    cbn [Build.assigned];
    repeat match goal with
           | |- context [String.eqb ?a k] =>
               destruct (String.eqb_spec a k) as [<-|?]; cbv beta iota
           end;
    rewrite ?lookup_empty; intros [= <-]; by eexists.
  Opaque Mts.defines.
Qed.

(** X16.  build.mts hands esbuild strings only as the values of
    [define], as its API asks for. *)
Theorem mts_define_values_are_strings (cts : Mts.Common) :
  Forall (fun o => forall k v, Build.define o !! k = Some v ->
                               exists text, v = JS.JStr text)
         (Mts.buildOptions cts).
Proof.
  each_bundle; intros k v; read_key k;
    first [ apply mts_defines_strings | intros [= <-]; by eexists ].
Qed.

Lemma mts_define_values_are_strings_witness :
  exists text,
    JS.JStr (JS.JSON_stringify_string "1.6.5") = JS.JStr text.
Proof.
  pose proof (mts_define_values_are_strings SampleBuild.mts) as H.
  unfold Mts.buildOptions in H. apply Forall_cons_1 in H as [H _].
  apply (H "VERSION"). reflexivity.
Defined.

Transparent Mts.defines Mjs.defines Mts.spreadBuildOpts Mjs.spreadCommonOpts.

(** ** The manifest of native plugins, once more *)

Section ManifestFacts.

Import JS GlobNatives.

Lemma importsText_head i p ps :
  exists rest, importsText i (p :: ps) = String "i" rest.
Proof. destruct p as [dir file]. cbn [importsText]. rewrite !app_String. eauto. Qed.

Lemma manifestText_ext n1 n2 i ps :
  (forall dir file, (dir, file) ∈ ps ->
     n1 (join ["src"; dir]) file = n2 (join ["src"; dir]) file) ->
  manifestText n1 i ps = manifestText n2 i ps.
Proof.
  revert i. induction ps as [|[dir file] ps IH]; intros i H; [done|].
  cbn [manifestText]. rewrite (H dir file) by apply list_elem_of_here.
  rewrite IH; [done|]. intros d f Hin. by apply H, list_elem_of_further.
Qed.

Lemma nativePluginsIn_ext e1 r1 e2 r2 dirs :
  (forall dir, dir ∈ dirs ->
     e1 (join ["src"; dir]) = e2 (join ["src"; dir])
     /\ (e1 (join ["src"; dir]) = true ->
         r1 (join ["src"; dir]) = r2 (join ["src"; dir])
         /\ forall file, file ∈ r1 (join ["src"; dir]) ->
              hasNative e1 dir file = hasNative e2 dir file)) ->
  nativePluginsIn e1 r1 dirs = nativePluginsIn e2 r2 dirs.
Proof.
  induction dirs as [|dir dirs IH]; intros H; [done|].
  rewrite (nativePluginsIn_cons e1 r1), (nativePluginsIn_cons e2 r2).
  rewrite IH by (intros d Hd; by apply H, list_elem_of_further).
  f_equal. destruct (H dir) as [He Hr]; [apply list_elem_of_here|].
  unfold nativePluginsIn. cbn [flat_map]. rewrite <- He.
  destruct (e1 (join ["src"; dir])); [|done].
  destruct Hr as [<- Hf]; [done|]. do 2 f_equal.
  apply List.filter_ext_in. intros f Hin. by apply Hf, list_elem_of_In.
Qed.

End ManifestFacts.

(** X17.  The generated module is [export default {}] with nothing
    imported exactly when no scanned entry has a native part; this is so
    in particular when neither [src/plugins] nor [src/userplugins]
    exists. *)
Theorem globNatives_empty_manifest (exists_ : string -> bool)
    (readdir : string -> list GlobNatives.Dirent)
    (resolvePluginName : string -> GlobNatives.Dirent -> string) :
  let contents :=
    GlobNatives.contents (GlobNatives.onLoad exists_ readdir resolvePluginName) in
  (contents = "export default {" +:+ String JS.newline "};"
   <-> nativePlugins exists_ readdir = [])
  /\ (exists_ "src/plugins" = false -> exists_ "src/userplugins" = false ->
      contents = "export default {" +:+ String JS.newline "};").
Proof.
  intros contents.
  assert (Hc : contents
               = importsText 0 (nativePlugins exists_ readdir)
                 +:+ "export default {"
                 +:+ String JS.newline
                       (manifestText resolvePluginName 0 (nativePlugins exists_ readdir))
                 +:+ "};").
  { unfold contents, GlobNatives.onLoad. rewrite scan_fold.
    cbn [GlobNatives.contents GlobNatives.code GlobNatives.natives
         GlobNatives.i Nat.add].
    fold (nativePlugins exists_ readdir).
    by rewrite app_empty_l, !app_assoc_s. }
  assert (He : nativePlugins exists_ readdir = [] ->
               contents = "export default {" +:+ String JS.newline "};").
  { intros E. rewrite Hc, E. reflexivity. }
  split; [split; [|done]|].
  - destruct (nativePlugins exists_ readdir) as [|p ps] eqn:E; [done|].
    rewrite Hc. destruct (importsText_head 0 p ps) as [rest ->].
    rewrite app_String. discriminate.
  - intros H1 H2. apply He.
    unfold nativePlugins, nativePluginsIn, GlobNatives.pluginDirs.
    cbn [flat_map GlobNatives.join]. change ("src" +:+ "/" +:+ "plugins") with "src/plugins".
    change ("src" +:+ "/" +:+ "userplugins") with "src/userplugins".
    by rewrite H1, H2.
Qed.

Lemma globNatives_empty_manifest_witness :
  GlobNatives.contents
    (GlobNatives.onLoad (fun _ => false) SampleTree.readdir
       SampleTree.resolvePluginName)
  = "export default {" +:+ String JS.newline "};".
Proof.
  by apply (proj2 (globNatives_empty_manifest (fun _ => false)
                     SampleTree.readdir SampleTree.resolvePluginName)).
Defined.

(** X18.  The scan reads nothing but the two plugin directories: two file
    systems that agree on whether [src/plugins] and [src/userplugins]
    exist, on the listing of each one that exists, on the two native
    paths of every listed entry, and on the resolved name of every entry
    with a native part, get the same module. *)
Theorem globNatives_reads_only_plugin_dirs
    (e1 e2 : string -> bool) (r1 r2 : string -> list GlobNatives.Dirent)
    (n1 n2 : string -> GlobNatives.Dirent -> string) :
  (forall dir, dir ∈ GlobNatives.pluginDirs ->
     let dirPath := GlobNatives.join ["src"; dir] in
     e1 dirPath = e2 dirPath
     /\ (e1 dirPath = true ->
         r1 dirPath = r2 dirPath
         /\ forall file, file ∈ r1 dirPath ->
              e1 (GlobNatives.join [dirPath; GlobNatives.name file; "native.ts"])
              = e2 (GlobNatives.join [dirPath; GlobNatives.name file; "native.ts"])
              /\ e1 (GlobNatives.join [dirPath; GlobNatives.name file; "native/index.ts"])
                 = e2 (GlobNatives.join [dirPath; GlobNatives.name file; "native/index.ts"])
              /\ (hasNative e1 dir file = true -> n1 dirPath file = n2 dirPath file))) ->
  GlobNatives.onLoad e1 r1 n1 = GlobNatives.onLoad e2 r2 n2.
Proof.
  intros H.
  assert (Hps : nativePluginsIn e1 r1 GlobNatives.pluginDirs
                = nativePluginsIn e2 r2 GlobNatives.pluginDirs).
  { apply nativePluginsIn_ext. intros dir Hd.
    destruct (H dir Hd) as [He Hr]. split; [done|].
    intros Ht. destruct (Hr Ht) as [Hl Hf]. split; [done|].
    intros file Hin. destruct (Hf file Hin) as (Ha & Hb & _).
    unfold hasNative. by rewrite Ha, Hb. }
  assert (Hn : forall i,
             manifestText n1 i (nativePluginsIn e1 r1 GlobNatives.pluginDirs)
             = manifestText n2 i (nativePluginsIn e1 r1 GlobNatives.pluginDirs)).
  { intros i. apply manifestText_ext. intros dir file Hin.
    apply nativePluginsIn_elem in Hin as (Hd & Ht & Hin & Hnat).
    destruct (H dir Hd) as [_ Hr]. destruct (Hr Ht) as [_ Hf].
    by apply Hf. }
  unfold GlobNatives.onLoad. rewrite !scan_fold.
  cbn [GlobNatives.code GlobNatives.natives GlobNatives.i].
  by rewrite Hn, Hps.
Qed.

Lemma globNatives_reads_only_plugin_dirs_witness :
  GlobNatives.onLoad SampleTree.exists_ SampleTree.readdir
    SampleTree.resolvePluginName
  = GlobNatives.onLoad
      (fun p => SampleTree.exists_ p || String.eqb p "src/plugins/b.ts/README.md")
      (fun p => if String.eqb p "src/api" then SampleTree.readdir "src/plugins"
                else SampleTree.readdir p)
      (fun dirPath file =>
         if String.eqb (GlobNatives.name file) "b.ts" then "B"
         else SampleTree.resolvePluginName dirPath file).
Proof.
  apply globNatives_reads_only_plugin_dirs.
  intros dir Hd. unfold GlobNatives.pluginDirs in Hd.
  apply elem_of_cons in Hd as [->|Hd];
    [|apply list_elem_of_singleton in Hd as ->].
  - cbn zeta. split; [reflexivity|]. intros _. split; [reflexivity|].
    intros file Hin.
    change (file ∈ [ {| GlobNatives.name := "a"; GlobNatives.isDirectory := true |};
                     {| GlobNatives.name := "b.ts"; GlobNatives.isDirectory := false |};
                     {| GlobNatives.name := "c"; GlobNatives.isDirectory := true |} ]) in Hin.
    apply elem_of_cons in Hin as [->|Hin];
      [|apply elem_of_cons in Hin as [->|Hin];
        [|apply list_elem_of_singleton in Hin as ->]];
      (split; [reflexivity|split; [reflexivity|]]);
      first [reflexivity | discriminate | intros _; reflexivity].
  - cbn zeta. split; [reflexivity|]. discriminate.
Defined.

(** ** The cat *)

Section OnekoFacts.

Import Plugins.

Lemma removeById_other id e l :
  e <> id -> e ∈ removeById id l <-> e ∈ l.
Proof.
  intros Hne. induction l as [|x l IH]; [done|].
  cbn [removeById]. destruct (String.eqb_spec x id) as [->|Hx].
  - rewrite elem_of_cons. split; [by right|]. by intros [->|?].
  - rewrite !elem_of_cons, IH. done.
Qed.

Lemma removeById_absent id l : id ∉ l -> removeById id l = l.
Proof.
  induction l as [|x l IH]; [done|]. intros Hn.
  apply not_elem_of_cons in Hn as [Hx Hl].
  cbn [removeById]. destruct (String.eqb_spec x id) as [->|_]; [done|].
  by rewrite IH.
Qed.

Lemma removeById_length id l :
  id ∈ l -> S (length (removeById id l)) = length l.
Proof.
  induction l as [|x l IH]; [by intros ?%elem_of_nil|].
  intros Hin. cbn [removeById]. destruct (String.eqb_spec x id) as [->|Hx]; [done|].
  apply elem_of_cons in Hin as [->|Hin]; [done|].
  cbn [length]. by rewrite IH.
Qed.

End OnekoFacts.

(** X19.  [oneko.stop] never throws and never fetches.  Afterwards
    [window.onekoInterval] is gone and the timer it named no longer runs,
    while every other timer runs as before; one element with the id
    [oneko] has left the document if there was one, and elements with
    another id stay.  On a page where the cat was never started, [stop]
    changes nothing. *)
Theorem oneko_stop_effect (p : Plugins.Page) :
  let p' := snd (Plugins.oneko_stop p) in
  fst (Plugins.oneko_stop p) = None
  /\ Plugins.fetches p' = Plugins.fetches p
  /\ Plugins.onekoInterval p' = None
  /\ (forall t, t ∈ Plugins.timers p' <->
        t ∈ Plugins.timers p /\ Plugins.onekoInterval p <> Some t)
  /\ (forall e, e <> "oneko" ->
        e ∈ Plugins.elements p' <-> e ∈ Plugins.elements p)
  /\ ("oneko" ∈ Plugins.elements p ->
      S (length (Plugins.elements p')) = length (Plugins.elements p))
  /\ (Plugins.onekoInterval p = None -> "oneko" ∉ Plugins.elements p ->
      p' = p).
Proof.
  cbn zeta. unfold Plugins.oneko_stop.
  cbn [fst snd Plugins.fetches Plugins.onekoInterval Plugins.timers Plugins.elements].
  split; [done|]. split; [done|]. split; [done|].
  split; [|split; [|split]].
  - intros t. destruct (Plugins.onekoInterval p) as [t0|].
    + rewrite list_elem_of_In, filter_In, <- list_elem_of_In.
      rewrite negb_true_iff, Z.eqb_neq. split.
      * intros [Hin Hne]. split; [done|]. by intros [= ->].
      * intros [Hin Hne]. split; [done|]. by intros ->.
    + split; [by intros ?|by intros [? _]].
  - intros e He. by apply removeById_other.
  - apply removeById_length.
  - intros Hi Hn. rewrite Hi, removeById_absent by done.
    destruct p; cbn in *. by rewrite Hi.
Qed.

Lemma oneko_stop_effect_witness :
  snd (Plugins.oneko_stop
         {| Plugins.timers := [4]; Plugins.onekoInterval := None;
            Plugins.elements := ["app-mount"]; Plugins.fetches := [] |})
  = {| Plugins.timers := [4]; Plugins.onekoInterval := None;
       Plugins.elements := ["app-mount"]; Plugins.fetches := [] |}.
Proof.
  apply (proj2 (proj2 (proj2 (proj2 (proj2 (proj2
           (oneko_stop_effect
              {| Plugins.timers := [4]; Plugins.onekoInterval := None;
                 Plugins.elements := ["app-mount"]; Plugins.fetches := [] |}))))))).
  - reflexivity.
  - cbn [Plugins.elements]. rewrite list_elem_of_singleton. discriminate.
Defined.

Section OnekoScriptFacts.

Import OnekoScript.

Lemma startsWith_spec prefix s :
  startsWith prefix s = true <-> exists t, s = prefix +:+ t.
Proof.
  revert s. induction prefix as [|a prefix IH]; intros s.
  - simpl. split; [by exists s|done].
  - destruct s as [|b s]; simpl.
    + split; [done|]. by intros [t ?].
    + rewrite andb_true_iff, IH. split.
      * intros [->%Ascii.eqb_eq [t ->]]. by exists t.
      * intros [t [= -> ->]]. split; [apply Ascii.eqb_refl|by exists t].
Qed.

Lemma replace_eq s pattern replacement :
  replace s pattern replacement
  = if startsWith pattern s
    then replacement +:+ JS.drop (String.length pattern) s
    else match s with
         | EmptyString => EmptyString
         | String c s' => String c (replace s' pattern replacement)
         end.
Proof. by destruct s. Qed.

(** Where [pattern] occurs, the first occurrence is replaced. *)
Lemma replace_first pattern replacement pre post :
  (forall a b, pre +:+ pattern +:+ post = a +:+ pattern +:+ b ->
     (String.length pre <= String.length a)%nat) ->
  replace (pre +:+ pattern +:+ post) pattern replacement
  = pre +:+ replacement +:+ post.
Proof.
  induction pre as [|c pre IH]; intros Hmin.
  - rewrite !app_empty_l, replace_eq.
    destruct (startsWith pattern (pattern +:+ post)) eqn:E.
    + by rewrite drop_app.
    + assert (startsWith pattern (pattern +:+ post) = true) as E'
        by (apply startsWith_spec; by exists post).
      congruence.
  - rewrite replace_eq.
    destruct (startsWith pattern (String c pre +:+ pattern +:+ post)) eqn:E.
    + apply startsWith_spec in E as [t E].
      specialize (Hmin EmptyString t E). simpl in Hmin. lia.
    + rewrite !app_String. f_equal. apply IH.
      intros a b Hab. specialize (Hmin (String c a) b).
      rewrite !app_String, Hab in Hmin. specialize (Hmin eq_refl).
      simpl in Hmin. lia.
Qed.

(** Where it does not occur, nothing is. *)
Lemma replace_absent s pattern replacement :
  (forall a b, s <> a +:+ pattern +:+ b) ->
  replace s pattern replacement = s.
Proof.
  induction s as [|c s IH]; intros Hn.
  - rewrite replace_eq. destruct (startsWith pattern EmptyString) eqn:E; [|done].
    apply startsWith_spec in E as [t E]. by destruct (Hn EmptyString t).
  - rewrite replace_eq.
    destruct (startsWith pattern (String c s)) eqn:E.
    + apply startsWith_spec in E as [t E]. by destruct (Hn EmptyString t).
    + f_equal. apply IH. intros a b ->. by apply (Hn (String c a) b).
Qed.

End OnekoScriptFacts.

(** X20.  The script that [oneko.start] evaluates is the fetched text
    with its first [./oneko.gif] turned into the address of the picture:
    a text without [./oneko.gif] is evaluated as it is, and a second
    occurrence is left alone. *)
Theorem oneko_script_first_gif (s : string) :
  ((forall a b, s <> a +:+ "./oneko.gif" +:+ b) -> OnekoScript.evaluated s = s)
  /\ (forall pre post,
        s = pre +:+ "./oneko.gif" +:+ post ->
        (forall a b, s = a +:+ "./oneko.gif" +:+ b ->
           (String.length pre <= String.length a)%nat) ->
        OnekoScript.evaluated s = pre +:+ OnekoScript.onekoGif +:+ post).
Proof.
  split.
  - apply replace_absent.
  - intros pre post -> Hmin. by apply replace_first.
Qed.

Lemma oneko_script_first_gif_witness :
  OnekoScript.evaluated "a('./oneko.gif');b('./oneko.gif')"
  = "a('" +:+ OnekoScript.onekoGif +:+ "');b('./oneko.gif')".
Proof.
  apply (proj2 (oneko_script_first_gif "a('./oneko.gif');b('./oneko.gif')")
           "a('" "');b('./oneko.gif')"); [reflexivity|].
  intros a b E.
  destruct a as [|c0 [|c1 [|c2 a]]]; cbn [String.length]; [| | |lia];
    cbv in E; discriminate E.
Defined.


(** ** The helpers over the stores *)

Section StoresFacts.

Import JS Stores.

Lemma stores_run_call (h : Stores) (c : StoreCall) {A} (k : JSVal -> Prog A)
    (w : world h) :
  run h (Call c k) w
  = match respond h c w with
    | (Host.Returned v, w') =>
        {| result := result (run h (k v) w'); final := final (run h (k v) w');
           trace := c :: trace (run h (k v) w') |}
    | (Host.Thrown e, w') =>
        {| result := inl (HostError e); final := w'; trace := [c] |}
    end.
Proof. reflexivity. Qed.

Lemma undefined_or_not (v : JSVal) : v = JUndefined \/ v <> JUndefined.
Proof. destruct v; first [by left|by right]. Qed.

Lemma optChain_defined v k x :
  optChain v k = x -> x <> JUndefined ->
  exists o, v = JObj o /\ o !! k = Some x.
Proof.
  intros <- Hx. destruct v as [| | | | |o|]; try done.
  exists o. split; [done|]. cbn [optChain] in *.
  by destruct (o !! k).
Qed.

End StoresFacts.

(** X21.  [getCurrentGuild] asks for the selected channel id, then for
    that channel, then for the guild named by the channel's [guild_id],
    and returns or throws what that last call does.  Where there is no
    channel, or the channel has no [guild_id], it does not throw: it asks
    [GuildStore.getGuild] for [undefined]. *)
Theorem getCurrentGuild_chain (h : Stores.Stores) (w w1 w2 : Stores.world h)
    (id channel : JS.JSVal) :
  Stores.respond h Stores.SelectedChannelStore_getChannelId w
    = (Host.Returned id, w1) ->
  Stores.respond h (Stores.ChannelStore_getChannel id) w1
    = (Host.Returned channel, w2) ->
  exists guildId,
    (guildId = JS.JUndefined
     \/ exists o, channel = JS.JObj o /\ o !! "guild_id" = Some guildId)
    /\ (forall o, channel = JS.JObj o ->
          guildId = default JS.JUndefined (o !! "guild_id"))
    /\ Stores.run h Stores.getCurrentChannel w
       = {| Stores.result := inr channel; Stores.final := w2;
            Stores.trace := [ Stores.SelectedChannelStore_getChannelId;
                              Stores.ChannelStore_getChannel id ] |}
    /\ Stores.run h Stores.getCurrentGuild w
       = let calls := [ Stores.SelectedChannelStore_getChannelId;
                        Stores.ChannelStore_getChannel id;
                        Stores.GuildStore_getGuild guildId ] in
         match Stores.respond h (Stores.GuildStore_getGuild guildId) w2 with
         | (Host.Returned guild, w3) =>
             {| Stores.result := inr guild; Stores.final := w3;
                Stores.trace := calls |}
         | (Host.Thrown e, w3) =>
             {| Stores.result := inl (JS.HostError e); Stores.final := w3;
                Stores.trace := calls |}
         end.
Proof.
  intros H1 H2. exists (Stores.optChain channel "guild_id").
  split; [|split; [|split]].
  - destruct (undefined_or_not (Stores.optChain channel "guild_id"))
      as [?|Hd]; [by left|right].
    by apply optChain_defined.
  - by intros o ->.
  - unfold Stores.getCurrentChannel, Stores.call. cbn [Stores.bind].
    rewrite !stores_run_call, H1, !stores_run_call, H2. reflexivity.
  - unfold Stores.getCurrentGuild, Stores.getCurrentChannel, Stores.call.
    cbn [Stores.bind]. rewrite !stores_run_call, H1.
    rewrite !stores_run_call, H2. cbn [Stores.bind].
    rewrite !stores_run_call. cbn zeta.
    by destruct (Stores.respond h _ w2) as [[guild|e] w3].
Qed.

Lemma getCurrentGuild_chain_witness :
  exists guildId,
    Stores.trace (Stores.run SampleStores.stores Stores.getCurrentGuild tt)
    = [ Stores.SelectedChannelStore_getChannelId;
        Stores.ChannelStore_getChannel (JS.JStr "42");
        Stores.GuildStore_getGuild guildId ].
Proof.
  destruct (getCurrentGuild_chain SampleStores.stores tt tt tt (JS.JStr "42")
              (JS.JObj {[ "id" := JS.JStr "42"; "type" := JS.JNum 1 ]})
              eq_refl eq_refl) as (guildId & _ & _ & _ & Hrun).
  exists guildId. rewrite Hrun. reflexivity.
Defined.

(** X22.  [getTheme] makes one call and never throws on what it gets:
    the result is [settings.appearance.theme] where the settings have
    that, and [undefined] in every other case, although the declared
    type has [Dark] and [Light] only. *)
Theorem getTheme_optional (h : Stores.Stores) (w : Stores.world h) :
  match Stores.respond h Stores.PreloadedUserSettings_getCurrentValue w with
  | (Host.Returned settings, w') =>
      exists theme,
        Stores.run h Stores.getTheme w
        = {| Stores.result := inr theme; Stores.final := w';
             Stores.trace := [Stores.PreloadedUserSettings_getCurrentValue] |}
        /\ (theme = JS.JUndefined
            \/ exists o a, settings = JS.JObj o
                           /\ o !! "appearance" = Some (JS.JObj a)
                           /\ a !! "theme" = Some theme)
        /\ (forall o a t, settings = JS.JObj o ->
               o !! "appearance" = Some (JS.JObj a) ->
               a !! "theme" = Some t -> theme = t)
  | (Host.Thrown e, w') =>
      Stores.run h Stores.getTheme w
      = {| Stores.result := inl (JS.HostError e); Stores.final := w';
           Stores.trace := [Stores.PreloadedUserSettings_getCurrentValue] |}
  end.
Proof.
  unfold Stores.getTheme, Stores.call. cbn [Stores.bind].
  rewrite stores_run_call.
  destruct (Stores.respond h _ w) as [[settings|e] w']; [|done].
  exists (Stores.optChain (Stores.optChain settings "appearance") "theme").
  split; [done|]. split.
  - destruct (undefined_or_not
                (Stores.optChain (Stores.optChain settings "appearance") "theme"))
      as [?|Hd]; [by left|right].
    destruct (optChain_defined _ _ _ eq_refl Hd) as (a & Ha & Ht).
    assert (Stores.optChain settings "appearance" <> JS.JUndefined) as Hs
      by (by rewrite Ha).
    destruct (optChain_defined _ _ _ eq_refl Hs) as (o & Ho & Hoa).
    exists o, a. by rewrite <- Ha.
  - intros o a t -> Ha Ht. cbn [Stores.optChain]. rewrite Ha.
    cbn [from_option id Stores.optChain]. by rewrite Ht.
Qed.

(** X23.  [openPrivateChannel] and [insertTextIntoChatInputBox] make one
    call each and hand nothing back: whatever the call returns, the
    result is [undefined]; what the call throws is thrown on.  The text
    is dispatched as [INSERT_TEXT], as both [rawText] and [plainText]. *)
Theorem store_procedures_return_undefined (h : Stores.Stores)
    (w : Stores.world h) (userId text : string) :
  (let c := Stores.PrivateChannelsStore_openPrivateChannel userId in
   Stores.run h (Stores.openPrivateChannel userId) w
   = {| Stores.result := match Stores.respond h c w with
                         | (Host.Returned _, _) => inr JS.JUndefined
                         | (Host.Thrown e, _) => inl (JS.HostError e)
                         end;
        Stores.final := snd (Stores.respond h c w);
        Stores.trace := [c] |})
  /\ exists payload,
       payload !! "rawText" = Some (JS.JStr text)
       /\ payload !! "plainText" = Some (JS.JStr text)
       /\ (forall k v, payload !! k = Some v -> k = "rawText" \/ k = "plainText")
       /\ let c := Stores.ComponentDispatch_dispatchToLastSubscribed
                     "INSERT_TEXT" payload in
          Stores.run h (Stores.insertTextIntoChatInputBox text) w
          = {| Stores.result := match Stores.respond h c w with
                                | (Host.Returned _, _) => inr JS.JUndefined
                                | (Host.Thrown e, _) => inl (JS.HostError e)
                                end;
               Stores.final := snd (Stores.respond h c w);
               Stores.trace := [c] |}.
Proof.
  split.
  - cbn zeta. unfold Stores.openPrivateChannel, Stores.call. cbn [Stores.bind].
    rewrite stores_run_call. by destruct (Stores.respond h _ w) as [[v|e] w'].
  - exists {[ "rawText" := JS.JStr text; "plainText" := JS.JStr text ]}.
    split; [|split; [|split]]; last first.
    + cbn zeta. unfold Stores.insertTextIntoChatInputBox, Stores.call.
      cbn [Stores.bind]. rewrite stores_run_call.
      by destruct (Stores.respond h _ w) as [[v|e] w'].
    + intros k v.
      destruct (decide (k = "rawText")) as [->|H1]; [by left|].
      destruct (decide (k = "plainText")) as [->|H2]; [by right|].
      by rewrite lookup_insert_ne, lookup_singleton_ne.
    + by rewrite lookup_insert_ne, lookup_singleton_eq.
    + by rewrite lookup_insert_eq.
Qed.

(** ** The image modal *)

(** X24.  In the modal that [openImageModal] renders, [className] and
    [size] of the root are the helper's own whatever the modal hands in,
    and every other property of the root is the modal's.  For the image
    it is the other way round: every property the caller gives replaces
    the helper's, and what the caller does not give is the helper's, so
    [src], [original] and [placeholder] are [url] only where the caller
    gives none. *)
Theorem openImageModal_precedence (url : string)
    (props : option (gmap string Host.PropVal)) :
  exists render,
    Discord.openImageModal url props = Host.call (Host.openModal render)
    /\ forall modalProps, exists rootProps imageProps,
         render modalProps
         = Host.Elem "ModalRoot" rootProps [Host.Elem "ImageModal" imageProps []]
         /\ rootProps !! "className" = Some (Host.PRef "ModalImageClasses.modal")
         /\ rootProps !! "size" = Some (Host.PRef "ModalSize.DYNAMIC")
         /\ (forall k, k <> "className" -> k <> "size" ->
               rootProps !! k = modalProps !! k)
         /\ (forall k,
               imageProps !! k
               = match props ≫= (.!! k) with
                 | Some given => Some given
                 | None =>
                     ({[ "className" := Host.PRef "ModalImageClasses.image";
                         "original" := Host.PVal (JS.JStr url);
                         "placeholder" := Host.PVal (JS.JStr url);
                         "src" := Host.PVal (JS.JStr url);
                         "renderLinkComponent" := Host.PRenderMaskedLink;
                         "shouldHideMediaOptions" := Host.PVal (JS.JBool false);
                         "shouldAnimate" := Host.PVal (JS.JBool true) ]}
                        : gmap string Host.PropVal) !! k
                 end)
         /\ (forall k, k ∈ ["src"; "original"; "placeholder"] ->
               imageProps !! k
               = Some (default (Host.PVal (JS.JStr url)) (props ≫= (.!! k)))).
Proof.
  eexists. split; [reflexivity|]. intros modalProps. eexists _, _.
  split; [reflexivity|].
  assert (Hall : forall k,
    Discord.imageModalProps url props !! k
    = match props ≫= (.!! k) with
      | Some given => Some given
      | None =>
          ({[ "className" := Host.PRef "ModalImageClasses.image";
              "original" := Host.PVal (JS.JStr url);
              "placeholder" := Host.PVal (JS.JStr url);
              "src" := Host.PVal (JS.JStr url);
              "renderLinkComponent" := Host.PRenderMaskedLink;
              "shouldHideMediaOptions" := Host.PVal (JS.JBool false);
              "shouldAnimate" := Host.PVal (JS.JBool true) ]}
             : gmap string Host.PropVal) !! k
      end).
  { intros k. unfold Discord.imageModalProps.
    destruct props as [given|]; cbn [mbind option_bind]; [|done].
    rewrite lookup_union. by destruct (given !! k), (_ !! k). }
  split; [|split; [|split; [|split]]].
  - by rewrite lookup_insert_ne, lookup_insert_eq.
  - by rewrite lookup_insert_eq.
  - intros k H1 H2. by rewrite !lookup_insert_ne.
  - exact Hall.
  - intros k Hk. rewrite Hall.
    destruct (props ≫= (.!! k)) as [given|]; [done|].
    cbn [default from_option id].
    apply elem_of_cons in Hk as [->|Hk];
      [|apply elem_of_cons in Hk as [->|Hk];
        [|apply list_elem_of_singleton in Hk as ->]];
      by repeat (rewrite lookup_insert_ne by done); rewrite lookup_insert_eq.
Qed.
